(** * Torsion checks of fib Model Code 2010, clause 7.3.4

    A shallow embedding of
    [structuralcodes/codes/mc2010/_concrete_torsion.py]
    ([v_ed_ti], [t_rd_max], [t_rd]) and the proofs of its properties.

    Number model.  The Python code computes on binary64 floats.  Here a
    float is idealised as a real number of the Standard Library: the
    arithmetic is exact, there is no rounding, no overflow, no infinity
    and no NaN.  An operation that has no real value is an exception, as
    in Python where Python raises one:
    - [a / b] with [b = 0] raises [ZeroDivisionError];
    - [x ** (1 / 3)] with [x < 0] yields a complex number, and [min]
      raises [TypeError] when it compares one;
    - reading a local name that no branch bound raises
      [UnboundLocalError];
    - [math.tan] returns a float for every float and never raises.  At
      0 it returns 0.  At the other zeros and at the poles of the real
      tangent, which no float argument hits exactly, it returns a finite
      float that is not zero: that value is a parameter of the
      development ([tan_rounded]); elsewhere it is the real tangent.

    The helpers [epsilon_x] and [v_rd_max] live in the sibling module
    [_concrete_shear]; they are parameters of the development, and may
    return a float or raise. *)

From Stdlib Require Import Reals ZArith Lra Lia.

Open Scope R_scope.

(** ** Python exceptions and results *)

(** [ValueError] is the exception by which Python code rejects the
    value of an argument; no line of the module raises it. *)
Inductive exn : Type :=
| ZeroDivisionError
| TypeError
| ValueError
| UnboundLocalError.

Inductive result (A : Type) : Type :=
| Ok (a : A)
| Raise (e : exn).

Arguments Ok {A} a.
Arguments Raise {A} e.

Definition bind {A B : Type} (c : result A) (k : A -> result B) : result B :=
  match c with
  | Ok a => k a
  | Raise e => Raise e
  end.

Notation "x <- c ;; k" := (bind c (fun x => k))
  (at level 61, c at next level, right associativity).

(** ** Python operators on floats *)

(** A number as [**] can produce it: a float, or a complex number when
    a negative base meets a fractional exponent.  Nothing in the module
    reads a complex value, so its parts are not kept. *)
Inductive number : Type :=
| Float (x : R)
| Complex.

(** [a / b] *)
Definition truediv (a b : R) : result R :=
  if Req_dec_T b 0 then Raise ZeroDivisionError else Ok (a / b).

(** [x ** y] for a fractional exponent [0 < y < 1] *)
Definition float_pow (x y : R) : number :=
  if Rlt_dec x 0 then Complex
  else if Req_dec_T x 0 then Float 0
  else Float (Rpower x y).

(** [min(a, b)] on two floats: [b] when [b < a], else [a] *)
Definition float_min (a b : R) : R :=
  if Rlt_dec b a then b else a.

(** [min(a, b)] where [a] comes out of [**] *)
Definition py_min (a : number) (b : R) : result R :=
  match a with
  | Float x => Ok (float_min x b)
  | Complex => Raise TypeError
  end.

(** [a <= b] *)
Definition float_le (a b : R) : bool :=
  if Rle_dec a b then true else false.

(** ** Stand-ins for the helpers of [_concrete_shear] and for the
    rounded tangent, used by the closed examples *)

Definition epsilon_x_const (e : R) (E_s As Med Ved Ned z delta_e : R)
  : result R := Ok e.

Definition tan_rounded_one (x : R) : {t : R | t <> 0} :=
  exist _ 1 R1_neq_R0.

Definition v_rd_max_const (v : R) (approx_lvl_s : Z)
  (fck bw theta z E_s As Med Ved Ned delta_e alfa gamma_c : R)
  : result R := Ok v.

(** ** The module *)

(** [v_ed_ti], eq. (7.3-53) *)
Definition v_ed_ti (t_ed a_k z_i : R) : result R :=
  truediv (t_ed * z_i) (2 * a_k).

Section Torsion.

(** The float that [math.tan] returns at a point other than 0 where the
    real tangent vanishes or has a pole.  A float argument only
    approximates such a point, and the result is finite and not zero;
    its value depends on the rounding of [pi] and is left open. *)
Variable tan_rounded : R -> {t : R | t <> 0}.

Variable epsilon_x : R -> R -> R -> R -> R -> R -> R -> result R.
Variable v_rd_max :
  Z -> R -> R -> R -> R -> R -> R -> R -> R -> R -> R -> R -> R -> result R.

(** [math.tan(x)]: a float for every float, no exception *)
Definition math_tan (x : R) : result R :=
  if Req_dec_T x 0 then Ok 0
  else if Req_dec_T (sin x) 0 then Ok (proj1_sig (tan_rounded x))
  else if Req_dec_T (cos x) 0 then Ok (proj1_sig (tan_rounded x))
  else Ok (tan x).

(** [nfc = min((30 / f_ck) ** (1 / 3), 1)], line 61 of [t_rd_max] *)
Definition t_rd_max_nfc (f_ck : R) : result R :=
  q <- truediv 30 f_ck ;;
  py_min (float_pow q (1 / 3)) 1.

(** The branch on [approx_lvl_s], lines 63-75 of [t_rd_max]: the value
    bound to [k_epsilon], or [None] when no branch binds the name. *)
Definition t_rd_max_k_epsilon (theta : R) (approx_lvl_s : Z)
  (E_s As Med Ved Ned z delta_e : R) : result (option R) :=
  if (approx_lvl_s =? 1)%Z then Ok (Some 0.55)
  else if (approx_lvl_s =? 2)%Z then
    e1 <- epsilon_x E_s As Med Ved Ned z delta_e ;;
    e2 <- epsilon_x E_s As Med Ved Ned z delta_e ;;
    t <- math_tan (theta * PI / 180) ;;
    c <- truediv 1 t ;;
    let epsilon_1 := e1 + (e2 + 0.002) * c ^ 2 in
    d <- truediv 1 (1.2 + 55 * epsilon_1) ;;
    Ok (Some (float_min d 0.65))
  else if (approx_lvl_s =? 3)%Z then
    e0 <- epsilon_x E_s As Med Ved Ned z delta_e ;;
    let theta_min := 20 + 10000 * e0 in
    e1 <- epsilon_x E_s As Med Ved Ned z delta_e ;;
    e2 <- epsilon_x E_s As Med Ved Ned z delta_e ;;
    t <- math_tan (theta_min * PI / 180) ;;
    c <- truediv 1 t ;;
    let epsilon_1 := e1 + (e2 + 0.002) * c ^ 2 in
    d <- truediv 1 (1.2 + 55 * epsilon_1) ;;
    Ok (Some (float_min d 0.65))
  else Ok None.

(** Reading the local [k_epsilon] *)
Definition load_local (v : option R) : result R :=
  match v with
  | Some x => Ok x
  | None => Raise UnboundLocalError
  end.

(** [t_rd_max], eq. (7.3-56) *)
Definition t_rd_max (f_ck gamma_c d_k a_k theta : R) (approx_lvl_s : Z)
  (E_s As Med Ved Ned z delta_e : R) : result R :=
  let t_ef := d_k / 8 in
  nfc <- t_rd_max_nfc f_ck ;;
  bound <- t_rd_max_k_epsilon theta approx_lvl_s E_s As Med Ved Ned z delta_e ;;
  k_epsilon <- load_local bound ;;
  let k_c := nfc * k_epsilon in
  truediv
    (k_c * f_ck * t_ef * 2 * a_k
     * sin (theta * PI / 180) * cos (theta * PI / 180))
    gamma_c.

(** [t_rd], the interaction check of torsion and shear *)
Definition t_rd (t_ed : R) (approx_lvl_s : Z)
  (fck bw theta z E_s As Med Ved Ned delta_e alfa f_ck d_k a_k gamma_c : R)
  : result bool :=
  trd <- t_rd_max f_ck gamma_c d_k a_k theta approx_lvl_s
           E_s As Med Ved Ned z delta_e ;;
  ut <- truediv t_ed trd ;;
  vrd <- v_rd_max approx_lvl_s fck bw theta z E_s As Med Ved Ned
           delta_e alfa gamma_c ;;
  uv <- truediv Ved vrd ;;
  Ok (float_le (ut ^ 2 + uv ^ 2) 1).

(** [t_rd] called without [gamma_c]: the default is 1.5 *)
Definition t_rd_default (t_ed : R) (approx_lvl_s : Z)
  (fck bw theta z E_s As Med Ved Ned delta_e alfa f_ck d_k a_k : R)
  : result bool :=
  t_rd t_ed approx_lvl_s fck bw theta z E_s As Med Ved Ned delta_e alfa
    f_ck d_k a_k 1.5.

(** ** Facts on the operators *)

Lemma bind_ok_inv {A B : Type} (c : result A) (k : A -> result B) (b : B) :
  bind c k = Ok b -> exists a, c = Ok a /\ k a = Ok b.
Proof.
  destruct c as [a|e]; simpl; intros H; [exists a; auto | discriminate].
Qed.

Lemma truediv_ok (a b : R) : b <> 0 -> truediv a b = Ok (a / b).
Proof.
  intros Hb. unfold truediv. destruct (Req_dec_T b 0); [contradiction | reflexivity].
Qed.

Lemma truediv_zero (a : R) : truediv a 0 = Raise ZeroDivisionError.
Proof.
  unfold truediv. destruct (Req_dec_T 0 0) as [_|n]; [reflexivity | now elim n].
Qed.

Lemma truediv_ok_inv (a b r : R) :
  truediv a b = Ok r -> b <> 0 /\ r = a / b.
Proof.
  unfold truediv. destruct (Req_dec_T b 0); intros H; [discriminate|].
  injection H as <-. auto.
Qed.

Lemma float_min_Rmin (a b : R) : float_min a b = Rmin a b.
Proof.
  unfold float_min, Rmin.
  destruct (Rlt_dec b a), (Rle_dec a b); lra.
Qed.

Lemma float_min_le_r (a b : R) : float_min a b <= b.
Proof. rewrite float_min_Rmin. apply Rmin_r. Qed.

Lemma float_le_true (a b : R) : float_le a b = true <-> a <= b.
Proof.
  unfold float_le. destruct (Rle_dec a b); split; intros H;
    auto; try discriminate; contradiction.
Qed.

Lemma float_le_false (a b : R) : float_le a b = false <-> b < a.
Proof.
  unfold float_le. destruct (Rle_dec a b); split; intros; auto; try discriminate; lra.
Qed.

Lemma sin_cos_half (x : R) : sin x * cos x = sin (2 * x) / 2.
Proof. rewrite sin_2a. lra. Qed.

Lemma Rpower_one_l (y : R) : Rpower 1 y = 1.
Proof. unfold Rpower. rewrite ln_1, Rmult_0_r. apply exp_0. Qed.

Lemma math_tan_regular (x : R) :
  sin x <> 0 -> cos x <> 0 -> math_tan x = Ok (tan x).
Proof.
  intros Hs Hc. unfold math_tan.
  destruct (Req_dec_T x 0) as [->|_]; [now rewrite sin_0 in Hs|].
  destruct (Req_dec_T (sin x) 0); [contradiction|].
  destruct (Req_dec_T (cos x) 0); [contradiction | reflexivity].
Qed.

Lemma math_tan_zero : math_tan 0 = Ok 0.
Proof.
  unfold math_tan. destruct (Req_dec_T 0 0) as [_|n];
    [reflexivity | now elim n].
Qed.

Lemma tan_nonzero_sin (x : R) : tan x <> 0 -> sin x <> 0.
Proof.
  intros Ht Hs. apply Ht. unfold tan. rewrite Hs. unfold Rdiv. ring.
Qed.

Lemma math_tan_nonzero (x : R) :
  x <> 0 -> exists t, math_tan x = Ok t /\ t <> 0.
Proof.
  intros Hx. unfold math_tan.
  destruct (Req_dec_T x 0); [contradiction|].
  destruct (Req_dec_T (sin x) 0) as [|Hs].
  - eexists. split; [reflexivity|]. apply proj2_sig.
  - destruct (Req_dec_T (cos x) 0) as [|Hc].
    + eexists. split; [reflexivity|]. apply proj2_sig.
    + eexists. split; [reflexivity|]. unfold tan, Rdiv.
      apply Rmult_integral_contrapositive. split; [assumption|].
      now apply Rinv_neq_0_compat.
Qed.

(** ** The strength factor [nfc] *)

Lemma nfc_pos (f_ck : R) :
  0 < f_ck ->
  t_rd_max_nfc f_ck = Ok (Rmin (Rpower (30 / f_ck) (1 / 3)) 1).
Proof.
  intros Hf. unfold t_rd_max_nfc.
  rewrite truediv_ok by lra. simpl.
  assert (Hq : 0 < 30 / f_ck) by (apply Rdiv_lt_0_compat; lra).
  unfold float_pow.
  destruct (Rlt_dec (30 / f_ck) 0); [lra|].
  destruct (Req_dec_T (30 / f_ck) 0); [lra|].
  simpl. now rewrite float_min_Rmin.
Qed.

Lemma nfc_zero : t_rd_max_nfc 0 = Raise ZeroDivisionError.
Proof. unfold t_rd_max_nfc. now rewrite truediv_zero. Qed.

Lemma nfc_neg (f_ck : R) : f_ck < 0 -> t_rd_max_nfc f_ck = Raise TypeError.
Proof.
  intros Hf. unfold t_rd_max_nfc.
  rewrite truediv_ok by lra. simpl.
  assert (Hq : 30 / f_ck < 0).
  { assert (Hi : 0 < / - f_ck) by (apply Rinv_0_lt_compat; lra).
    replace (30 / f_ck) with (- (30 * / - f_ck)) by (field; lra). lra. }
  unfold float_pow. destruct (Rlt_dec (30 / f_ck) 0); [reflexivity | lra].
Qed.

Lemma nfc_ok_inv (f_ck n : R) :
  t_rd_max_nfc f_ck = Ok n ->
  0 < f_ck /\ n = Rmin (Rpower (30 / f_ck) (1 / 3)) 1.
Proof.
  intros H.
  destruct (Rtotal_order f_ck 0) as [Hn|[Hz|Hp]].
  - rewrite nfc_neg in H by assumption. discriminate.
  - subst. rewrite nfc_zero in H. discriminate.
  - rewrite nfc_pos in H by assumption. injection H as <-. auto.
Qed.

Lemma nfc_at_30 : t_rd_max_nfc 30 = Ok 1.
Proof.
  rewrite nfc_pos by lra.
  replace (30 / 30) with 1 by lra.
  rewrite Rpower_one_l. f_equal. unfold Rmin.
  destruct (Rle_dec 1 1); lra.
Qed.

(** ** [v_ed_ti] *)

(** C7: whenever [a_k] is not zero, [v_ed_ti t_ed a_k z_i] returns
    [t_ed * z_i / (2 * a_k)]; and for positive [z_i] and [a_k] it is
    linear in [t_ed]: doubling [t_ed] doubles the returned value. *)
Theorem v_ed_ti_formula_linear (t_ed a_k z_i : R) :
  (a_k <> 0 -> v_ed_ti t_ed a_k z_i = Ok (t_ed * z_i / (2 * a_k)))
  /\ (0 < z_i -> 0 < a_k ->
      exists v, v_ed_ti t_ed a_k z_i = Ok v
                /\ v_ed_ti (2 * t_ed) a_k z_i = Ok (2 * v)).
Proof.
  split.
  - intros Ha. unfold v_ed_ti. apply truediv_ok. lra.
  - intros _ Ha. exists (t_ed * z_i / (2 * a_k)).
    unfold v_ed_ti. rewrite !truediv_ok by lra.
    split; [reflexivity|]. f_equal. field. lra.
Qed.

(** ** [t_rd_max] at level 1 *)

Lemma t_rd_max_level1_unfold
  (f_ck gamma_c d_k a_k theta E_s As Med Ved Ned z delta_e : R) :
  t_rd_max f_ck gamma_c d_k a_k theta 1 E_s As Med Ved Ned z delta_e =
  (nfc <- t_rd_max_nfc f_ck ;;
   truediv
     (nfc * 0.55 * f_ck * (d_k / 8) * 2 * a_k
      * sin (theta * PI / 180) * cos (theta * PI / 180))
     gamma_c).
Proof.
  unfold t_rd_max. destruct (t_rd_max_nfc f_ck); reflexivity.
Qed.

(** C2: at level 1 the result does not depend on [E_s], [As], [Med],
    [Ved], [Ned], [z], [delta_e]; it is the closed form with
    [k_epsilon = 0.55] whenever [f_ck] is positive and [gamma_c] is not
    zero, and no value is returned otherwise. *)
Theorem t_rd_max_level1_closed_form (f_ck gamma_c d_k a_k theta : R) :
  (forall E_s As Med Ved Ned z delta_e E_s' As' Med' Ved' Ned' z' delta_e',
      t_rd_max f_ck gamma_c d_k a_k theta 1 E_s As Med Ved Ned z delta_e =
      t_rd_max f_ck gamma_c d_k a_k theta 1
        E_s' As' Med' Ved' Ned' z' delta_e')
  /\ (forall E_s As Med Ved Ned z delta_e,
        0 < f_ck -> gamma_c <> 0 ->
        t_rd_max f_ck gamma_c d_k a_k theta 1 E_s As Med Ved Ned z delta_e =
        Ok (Rmin (Rpower (30 / f_ck) (1 / 3)) 1 * 0.55 * f_ck * (d_k / 8)
            * 2 * a_k * sin (theta * PI / 180) * cos (theta * PI / 180)
            / gamma_c))
  /\ (forall E_s As Med Ved Ned z delta_e r,
        t_rd_max f_ck gamma_c d_k a_k theta 1 E_s As Med Ved Ned z delta_e
        = Ok r ->
        0 < f_ck /\ gamma_c <> 0).
Proof.
  split; [|split].
  - intros. now rewrite !t_rd_max_level1_unfold.
  - intros E_s As Med Ved Ned z delta_e Hf Hg.
    rewrite t_rd_max_level1_unfold, nfc_pos by assumption. simpl.
    now apply truediv_ok.
  - intros E_s As Med Ved Ned z delta_e r H.
    rewrite t_rd_max_level1_unfold in H.
    apply bind_ok_inv in H as (n & Hn & H).
    apply nfc_ok_inv in Hn as [Hf _].
    apply truediv_ok_inv in H as [Hg _]. auto.
Qed.

(** C10: at level 1, [theta] and [90 - theta] give the same outcome. *)
Theorem t_rd_max_level1_mirror
  (f_ck gamma_c d_k a_k theta E_s As Med Ved Ned z delta_e : R) :
  t_rd_max f_ck gamma_c d_k a_k theta 1 E_s As Med Ved Ned z delta_e =
  t_rd_max f_ck gamma_c d_k a_k (90 - theta) 1 E_s As Med Ved Ned z delta_e.
Proof.
  rewrite !t_rd_max_level1_unfold.
  replace ((90 - theta) * PI / 180) with (PI / 2 - theta * PI / 180) by lra.
  rewrite sin_shift, cos_shift.
  destruct (t_rd_max_nfc f_ck) as [n|e]; simpl; [|reflexivity].
  f_equal. ring.
Qed.

Lemma sin_cos_45 : sin (45 * PI / 180) * cos (45 * PI / 180) = 1 / 2.
Proof.
  rewrite sin_cos_half.
  replace (2 * (45 * PI / 180)) with (PI / 2) by lra.
  rewrite sin_PI2. lra.
Qed.

Lemma sin_cos_135 : sin (135 * PI / 180) * cos (135 * PI / 180) = - (1 / 2).
Proof.
  rewrite sin_cos_half.
  replace (2 * (135 * PI / 180)) with (3 * (PI / 2)) by lra.
  rewrite sin_3PI2. lra.
Qed.

Lemma t_rd_max_example_value (E_s As Med Ved Ned z delta_e : R) :
  t_rd_max 30 1.5 400 80000 45 1 E_s As Med Ved Ned z delta_e = Ok 44000000.
Proof.
  rewrite t_rd_max_level1_unfold, nfc_at_30. cbn [bind].
  rewrite truediv_ok by lra. f_equal.
  replace (1 * 0.55 * 30 * (400 / 8) * 2 * 80000
           * sin (45 * PI / 180) * cos (45 * PI / 180))
    with (0.55 * 30 * 50 * 2 * 80000
          * (sin (45 * PI / 180) * cos (45 * PI / 180))) by lra.
  rewrite sin_cos_45. lra.
Qed.

(** C9: the worked example. With [f_ck = 30], [gamma_c = 1.5],
    [d_k = 400], [a_k = 80000], [theta = 45] at level 1, the wall
    thickness is 50, [nfc] is 1, [k_epsilon] and [k_c] are 0.55, and
    [t_rd_max] returns 44000000, whatever the seven other arguments. *)
Theorem t_rd_max_worked_example (E_s As Med Ved Ned z delta_e : R) :
  400 / 8 = 50
  /\ t_rd_max_nfc 30 = Ok 1
  /\ t_rd_max_k_epsilon 45 1 E_s As Med Ved Ned z delta_e = Ok (Some 0.55)
  /\ 1 * 0.55 = 0.55
  /\ t_rd_max 30 1.5 400 80000 45 1 E_s As Med Ved Ned z delta_e
     = Ok 44000000.
Proof.
  repeat split; try lra.
  - apply nfc_at_30.
  - apply t_rd_max_example_value.
Qed.

(** ** [t_rd_max] at a level outside 1, 2, 3 *)

Lemma k_epsilon_unbound
  (theta : R) (approx_lvl_s : Z) (E_s As Med Ved Ned z delta_e : R) :
  approx_lvl_s <> 1%Z -> approx_lvl_s <> 2%Z -> approx_lvl_s <> 3%Z ->
  t_rd_max_k_epsilon theta approx_lvl_s E_s As Med Ved Ned z delta_e
  = Ok None.
Proof.
  intros H1 H2 H3. unfold t_rd_max_k_epsilon.
  apply Z.eqb_neq in H1, H2, H3. now rewrite H1, H2, H3.
Qed.

(** C3, amended: for a level outside 1, 2, 3, [t_rd_max] returns no
    value, it raises; but the exception is not one that rejects the
    argument ([ValueError]).  It is [UnboundLocalError], raised where
    [k_epsilon] is read, when [f_ck > 0]; for [f_ck <= 0] it is the
    exception of the [nfc] step ([ZeroDivisionError] at 0, [TypeError]
    below), the outcome of every other level too. *)
Theorem t_rd_max_invalid_level
  (f_ck gamma_c d_k a_k theta : R) (approx_lvl_s : Z)
  (E_s As Med Ved Ned z delta_e : R) :
  approx_lvl_s <> 1%Z -> approx_lvl_s <> 2%Z -> approx_lvl_s <> 3%Z ->
  (exists e,
      t_rd_max f_ck gamma_c d_k a_k theta approx_lvl_s
        E_s As Med Ved Ned z delta_e = Raise e
      /\ e <> ValueError)
  /\ (0 < f_ck ->
      t_rd_max f_ck gamma_c d_k a_k theta approx_lvl_s
        E_s As Med Ved Ned z delta_e = Raise UnboundLocalError)
  /\ (f_ck = 0 ->
      t_rd_max f_ck gamma_c d_k a_k theta approx_lvl_s
        E_s As Med Ved Ned z delta_e = Raise ZeroDivisionError)
  /\ (f_ck < 0 ->
      t_rd_max f_ck gamma_c d_k a_k theta approx_lvl_s
        E_s As Med Ved Ned z delta_e = Raise TypeError)
  /\ (f_ck <= 0 ->
      forall level : Z,
        t_rd_max f_ck gamma_c d_k a_k theta approx_lvl_s
          E_s As Med Ved Ned z delta_e =
        t_rd_max f_ck gamma_c d_k a_k theta level
          E_s As Med Ved Ned z delta_e).
Proof.
  intros H1 H2 H3.
  assert (Hpos : 0 < f_ck ->
            t_rd_max f_ck gamma_c d_k a_k theta approx_lvl_s
              E_s As Med Ved Ned z delta_e = Raise UnboundLocalError).
  { intros Hf. unfold t_rd_max.
    rewrite nfc_pos, k_epsilon_unbound by assumption. reflexivity. }
  assert (Hzero : forall level : Z, f_ck = 0 ->
            t_rd_max f_ck gamma_c d_k a_k theta level
              E_s As Med Ved Ned z delta_e = Raise ZeroDivisionError).
  { intros level ->. unfold t_rd_max. now rewrite nfc_zero. }
  assert (Hneg : forall level : Z, f_ck < 0 ->
            t_rd_max f_ck gamma_c d_k a_k theta level
              E_s As Med Ved Ned z delta_e = Raise TypeError).
  { intros level Hf. unfold t_rd_max. now rewrite nfc_neg. }
  split; [|split; [|split; [|split]]].
  - destruct (Rtotal_order f_ck 0) as [Hn|[Hz|Hp]].
    + exists TypeError. split; [now apply Hneg | discriminate].
    + exists ZeroDivisionError. split; [now apply Hzero | discriminate].
    + exists UnboundLocalError. split; [now apply Hpos | discriminate].
  - exact Hpos.
  - apply Hzero.
  - apply Hneg.
  - intros Hf level. destruct Hf as [Hn|Hz].
    + now rewrite !Hneg.
    + now rewrite !Hzero.
Qed.

(** ** [t_rd_max] at the levels 2 and 3 *)

Ltac bind_inv H :=
  let x := fresh "x" in
  let Hx := fresh "Hx" in
  apply bind_ok_inv in H as (x & Hx & H).

Lemma k_epsilon_level2
  (theta E_s As Med Ved Ned z delta_e ex : R) :
  epsilon_x E_s As Med Ved Ned z delta_e = Ok ex ->
  cos (theta * PI / 180) <> 0 ->
  tan (theta * PI / 180) <> 0 ->
  1.2 + 55 * (ex + (ex + 0.002) * (1 / tan (theta * PI / 180)) ^ 2) <> 0 ->
  t_rd_max_k_epsilon theta 2 E_s As Med Ved Ned z delta_e =
  Ok (Some
        (Rmin
           (1 / (1.2 + 55 * (ex + (ex + 0.002)
                                  * (1 / tan (theta * PI / 180)) ^ 2)))
           0.65)).
Proof.
  intros Hex Hc Ht Hd. unfold t_rd_max_k_epsilon. simpl Z.eqb. cbv iota.
  rewrite Hex. cbn [bind].
  rewrite math_tan_regular by (try assumption; now apply tan_nonzero_sin).
  cbn [bind]. rewrite truediv_ok by assumption. cbn [bind].
  rewrite truediv_ok by assumption. cbn [bind].
  now rewrite float_min_Rmin.
Qed.

Lemma k_epsilon_level3_as_level2
  (theta E_s As Med Ved Ned z delta_e ex : R) :
  epsilon_x E_s As Med Ved Ned z delta_e = Ok ex ->
  t_rd_max_k_epsilon theta 3 E_s As Med Ved Ned z delta_e =
  t_rd_max_k_epsilon (20 + 10000 * ex) 2 E_s As Med Ved Ned z delta_e.
Proof.
  intros Hex. unfold t_rd_max_k_epsilon. simpl Z.eqb. cbv iota.
  rewrite Hex. reflexivity.
Qed.

Lemma k_epsilon_level3_any_theta
  (theta theta' E_s As Med Ved Ned z delta_e : R) :
  t_rd_max_k_epsilon theta 3 E_s As Med Ved Ned z delta_e =
  t_rd_max_k_epsilon theta' 3 E_s As Med Ved Ned z delta_e.
Proof. reflexivity. Qed.

Lemma t_rd_max_ok
  (f_ck gamma_c d_k a_k theta : R) (approx_lvl_s : Z)
  (E_s As Med Ved Ned z delta_e n k : R) :
  t_rd_max_nfc f_ck = Ok n ->
  t_rd_max_k_epsilon theta approx_lvl_s E_s As Med Ved Ned z delta_e
  = Ok (Some k) ->
  gamma_c <> 0 ->
  t_rd_max f_ck gamma_c d_k a_k theta approx_lvl_s
    E_s As Med Ved Ned z delta_e =
  Ok (n * k * f_ck * (d_k / 8) * 2 * a_k
      * sin (theta * PI / 180) * cos (theta * PI / 180) / gamma_c).
Proof.
  intros Hn Hk Hg. unfold t_rd_max. rewrite Hn, Hk. cbn [bind load_local].
  now apply truediv_ok.
Qed.

Lemma t_rd_max_ok_inv
  (f_ck gamma_c d_k a_k theta : R) (approx_lvl_s : Z)
  (E_s As Med Ved Ned z delta_e r : R) :
  t_rd_max f_ck gamma_c d_k a_k theta approx_lvl_s
    E_s As Med Ved Ned z delta_e = Ok r ->
  exists n k,
    t_rd_max_nfc f_ck = Ok n
    /\ t_rd_max_k_epsilon theta approx_lvl_s E_s As Med Ved Ned z delta_e
       = Ok (Some k)
    /\ gamma_c <> 0
    /\ r = n * k * f_ck * (d_k / 8) * 2 * a_k
           * sin (theta * PI / 180) * cos (theta * PI / 180) / gamma_c.
Proof.
  unfold t_rd_max. intros H.
  apply bind_ok_inv in H as (n & Hn & H).
  apply bind_ok_inv in H as (b & Hb & H).
  apply bind_ok_inv in H as (k & Hk & H).
  destruct b as [k'|]; simpl in Hk; [|discriminate].
  injection Hk as ->.
  apply truediv_ok_inv in H as [Hg ->].
  exists n, k. auto.
Qed.

(** C4: at level 3 the refined angle [theta_min = 20 + 10000 * epsilon_x]
    enters the result only through the cotangent of [epsilon_1]; the
    sine and the cosine of the returned product are taken at the input
    [theta].  The value bound to [k_epsilon] is the same for every
    [theta], and is the one of level 2 at the angle [theta_min]. *)
Theorem t_rd_max_level3_angles
  (f_ck gamma_c d_k a_k theta E_s As Med Ved Ned z delta_e ex : R) :
  epsilon_x E_s As Med Ved Ned z delta_e = Ok ex ->
  (forall theta',
      t_rd_max_k_epsilon theta 3 E_s As Med Ved Ned z delta_e =
      t_rd_max_k_epsilon theta' 3 E_s As Med Ved Ned z delta_e)
  /\ t_rd_max_k_epsilon theta 3 E_s As Med Ved Ned z delta_e =
     t_rd_max_k_epsilon (20 + 10000 * ex) 2 E_s As Med Ved Ned z delta_e
  /\ (0 < f_ck -> gamma_c <> 0 ->
      cos ((20 + 10000 * ex) * PI / 180) <> 0 ->
      tan ((20 + 10000 * ex) * PI / 180) <> 0 ->
      1.2 + 55 * (ex + (ex + 0.002)
                       * (1 / tan ((20 + 10000 * ex) * PI / 180)) ^ 2) <> 0 ->
      t_rd_max f_ck gamma_c d_k a_k theta 3 E_s As Med Ved Ned z delta_e =
      Ok (Rmin (Rpower (30 / f_ck) (1 / 3)) 1
          * Rmin
              (1 / (1.2 + 55 * (ex + (ex + 0.002)
                     * (1 / tan ((20 + 10000 * ex) * PI / 180)) ^ 2)))
              0.65
          * f_ck * (d_k / 8) * 2 * a_k
          * sin (theta * PI / 180) * cos (theta * PI / 180) / gamma_c)).
Proof.
  intros Hex. split; [|split].
  - intros theta'. apply k_epsilon_level3_any_theta.
  - now apply k_epsilon_level3_as_level2.
  - intros Hf Hg Hc Ht Hd.
    apply t_rd_max_ok; [now apply nfc_pos | | assumption].
    rewrite (k_epsilon_level3_as_level2 _ _ _ _ _ _ _ _ ex Hex).
    now apply k_epsilon_level2.
Qed.

(** C5: at the levels 2 and 3 the value bound to [k_epsilon] never
    exceeds 0.65, whatever the inputs and whatever [epsilon_x]
    returns. *)
Theorem k_epsilon_at_most_065
  (theta : R) (approx_lvl_s : Z) (E_s As Med Ved Ned z delta_e : R)
  (bound : option R) :
  approx_lvl_s = 2%Z \/ approx_lvl_s = 3%Z ->
  t_rd_max_k_epsilon theta approx_lvl_s E_s As Med Ved Ned z delta_e
  = Ok bound ->
  exists k_epsilon, bound = Some k_epsilon /\ k_epsilon <= 0.65.
Proof.
  intros [-> | ->] H; unfold t_rd_max_k_epsilon in H;
    simpl Z.eqb in H; cbv iota in H.
  - do 5 bind_inv H. injection H as <-.
    eexists; split; [reflexivity | apply float_min_le_r].
  - do 6 bind_inv H. injection H as <-.
    eexists; split; [reflexivity | apply float_min_le_r].
Qed.

(** ** The clamp of [nfc] *)

Lemma cube_root_above_one (q : R) : 1 < q -> 1 < Rpower q (1 / 3).
Proof.
  intros Hq. apply Rle_lt_trans with (Rpower 1 (1 / 3)).
  - rewrite Rpower_one_l. lra.
  - apply Rlt_Rpower_l; lra.
Qed.

Lemma cube_root_at_most_one (q : R) : 0 < q <= 1 -> Rpower q (1 / 3) <= 1.
Proof.
  intros Hq. apply Rle_trans with (Rpower 1 (1 / 3)).
  - apply Rle_Rpower_l; lra.
  - rewrite Rpower_one_l. lra.
Qed.

Lemma ratio_above_one (f_ck : R) : 0 < f_ck < 30 -> 1 < 30 / f_ck.
Proof.
  intros [H0 H30]. apply Rmult_lt_reg_r with f_ck; [assumption|].
  unfold Rdiv. rewrite Rmult_assoc, Rinv_l by lra. lra.
Qed.

Lemma ratio_at_most_one (f_ck : R) : 30 <= f_ck -> 0 < 30 / f_ck <= 1.
Proof.
  intros H30. split.
  - apply Rdiv_lt_0_compat; lra.
  - apply Rmult_le_reg_r with f_ck; [lra|].
    unfold Rdiv. rewrite Rmult_assoc, Rinv_l by lra. lra.
Qed.

(** C6: [nfc] never exceeds 1.  For [f_ck >= 30] it is the cube root of
    [30 / f_ck], which is at most 1; for [0 < f_ck < 30] the cube root
    is above 1 and [nfc] is 1; and every value that [t_rd_max] returns
    is the product built on this clamped [nfc]. *)
Theorem nfc_never_exceeds_one :
  (forall f_ck, 30 <= f_ck ->
     t_rd_max_nfc f_ck = Ok (Rpower (30 / f_ck) (1 / 3))
     /\ Rpower (30 / f_ck) (1 / 3) <= 1)
  /\ (forall f_ck, 0 < f_ck < 30 ->
       1 < Rpower (30 / f_ck) (1 / 3) /\ t_rd_max_nfc f_ck = Ok 1)
  /\ (forall f_ck gamma_c d_k a_k theta approx_lvl_s
             E_s As Med Ved Ned z delta_e r,
       t_rd_max f_ck gamma_c d_k a_k theta approx_lvl_s
         E_s As Med Ved Ned z delta_e = Ok r ->
       exists nfc k_epsilon,
         t_rd_max_nfc f_ck = Ok nfc
         /\ nfc <= 1
         /\ t_rd_max_k_epsilon theta approx_lvl_s
              E_s As Med Ved Ned z delta_e = Ok (Some k_epsilon)
         /\ r = nfc * k_epsilon * f_ck * (d_k / 8) * 2 * a_k
                * sin (theta * PI / 180) * cos (theta * PI / 180)
                / gamma_c).
Proof.
  split; [|split].
  - intros f_ck H30.
    pose proof (cube_root_at_most_one _ (ratio_at_most_one _ H30)) as Hle.
    split; [|assumption].
    rewrite nfc_pos by lra. f_equal. now apply Rmin_left.
  - intros f_ck Hf.
    pose proof (cube_root_above_one _ (ratio_above_one _ Hf)) as Hlt.
    split; [assumption|].
    rewrite nfc_pos by lra. f_equal. apply Rmin_right. lra.
  - intros f_ck gamma_c d_k a_k theta approx_lvl_s
      E_s As Med Ved Ned z delta_e r H.
    apply t_rd_max_ok_inv in H as (n & k & Hn & Hk & Hg & ->).
    exists n, k. repeat split; try assumption.
    apply nfc_ok_inv in Hn as [_ ->]. apply Rmin_r.
Qed.

(** ** [t_rd_max] as a function of [a_k] *)

(** C8, amended: [t_rd_max] is non-decreasing in [a_k] when the factor
    that multiplies [a_k] is not negative: [f_ck > 0], [d_k >= 0],
    [gamma_c > 0], [theta] between 0 and 90 degrees and a value of
    [k_epsilon] that is not negative (at level 1 it is 0.55). *)
Theorem t_rd_max_monotone_in_a_k
  (f_ck gamma_c d_k a_k1 a_k2 theta : R) (approx_lvl_s : Z)
  (E_s As Med Ved Ned z delta_e k_epsilon : R) :
  0 < f_ck -> 0 <= d_k -> 0 < gamma_c -> 0 <= theta <= 90 ->
  t_rd_max_k_epsilon theta approx_lvl_s E_s As Med Ved Ned z delta_e
  = Ok (Some k_epsilon) ->
  0 <= k_epsilon ->
  a_k1 <= a_k2 ->
  exists r1 r2,
    t_rd_max f_ck gamma_c d_k a_k1 theta approx_lvl_s
      E_s As Med Ved Ned z delta_e = Ok r1
    /\ t_rd_max f_ck gamma_c d_k a_k2 theta approx_lvl_s
         E_s As Med Ved Ned z delta_e = Ok r2
    /\ r1 <= r2.
Proof.
  intros Hf Hd Hg Hth Hk Hk0 Ha.
  pose proof (nfc_pos f_ck Hf) as Hn.
  set (n := Rmin (Rpower (30 / f_ck) (1 / 3)) 1) in *.
  do 2 eexists. split; [|split].
  - apply (t_rd_max_ok _ _ _ _ _ _ _ _ _ _ _ _ _ n k_epsilon Hn Hk). lra.
  - apply (t_rd_max_ok _ _ _ _ _ _ _ _ _ _ _ _ _ n k_epsilon Hn Hk). lra.
  - assert (Hn0 : 0 < n).
    { unfold n. apply Rmin_glb_lt; [|lra].
      unfold Rpower. apply exp_pos. }
    assert (Hpi : 0 < PI) by apply PI_RGT_0.
    assert (Hs : 0 <= sin (theta * PI / 180)).
    { apply sin_ge_0; nra. }
    assert (Hc : 0 <= cos (theta * PI / 180)).
    { apply cos_ge_0; nra. }
    assert (Hfac : 0 <= n * k_epsilon * f_ck * (d_k / 8) * 2
                        * (sin (theta * PI / 180) * cos (theta * PI / 180))).
    { repeat apply Rmult_le_pos; lra. }
    set (sc := sin (theta * PI / 180) * cos (theta * PI / 180)) in *.
    replace (n * k_epsilon * f_ck * (d_k / 8) * 2 * a_k1
             * sin (theta * PI / 180) * cos (theta * PI / 180))
      with (n * k_epsilon * f_ck * (d_k / 8) * 2 * sc * a_k1)
      by (unfold sc; ring).
    replace (n * k_epsilon * f_ck * (d_k / 8) * 2 * a_k2
             * sin (theta * PI / 180) * cos (theta * PI / 180))
      with (n * k_epsilon * f_ck * (d_k / 8) * 2 * sc * a_k2)
      by (unfold sc; ring).
    apply Rmult_le_compat_r; [left; now apply Rinv_0_lt_compat|].
    apply Rmult_le_compat_l; assumption.
Qed.

(** ** [t_rd] *)

Lemma t_rd_ok_inv (t_ed : R) (approx_lvl_s : Z)
  (fck bw theta z E_s As Med Ved Ned delta_e alfa f_ck d_k a_k gamma_c : R)
  (b : bool) :
  t_rd t_ed approx_lvl_s fck bw theta z E_s As Med Ved Ned delta_e alfa
    f_ck d_k a_k gamma_c = Ok b ->
  exists trd vrd,
    t_rd_max f_ck gamma_c d_k a_k theta approx_lvl_s
      E_s As Med Ved Ned z delta_e = Ok trd
    /\ trd <> 0
    /\ v_rd_max approx_lvl_s fck bw theta z E_s As Med Ved Ned
         delta_e alfa gamma_c = Ok vrd
    /\ vrd <> 0
    /\ b = float_le ((t_ed / trd) ^ 2 + (Ved / vrd) ^ 2) 1.
Proof.
  unfold t_rd. intros H.
  apply bind_ok_inv in H as (trd & Htrd & H).
  apply bind_ok_inv in H as (ut & Hut & H).
  apply bind_ok_inv in H as (vrd & Hvrd & H).
  apply bind_ok_inv in H as (uv & Huv & H).
  apply truediv_ok_inv in Hut as [Ht ->].
  apply truediv_ok_inv in Huv as [Hv ->].
  injection H as <-.
  exists trd, vrd. auto.
Qed.

Lemma t_rd_ok (t_ed : R) (approx_lvl_s : Z)
  (fck bw theta z E_s As Med Ved Ned delta_e alfa f_ck d_k a_k gamma_c : R)
  (trd vrd : R) :
  t_rd_max f_ck gamma_c d_k a_k theta approx_lvl_s
    E_s As Med Ved Ned z delta_e = Ok trd ->
  trd <> 0 ->
  v_rd_max approx_lvl_s fck bw theta z E_s As Med Ved Ned
    delta_e alfa gamma_c = Ok vrd ->
  vrd <> 0 ->
  t_rd t_ed approx_lvl_s fck bw theta z E_s As Med Ved Ned delta_e alfa
    f_ck d_k a_k gamma_c =
  Ok (float_le ((t_ed / trd) ^ 2 + (Ved / vrd) ^ 2) 1).
Proof.
  intros Htrd Ht Hvrd Hv. unfold t_rd.
  rewrite Htrd. cbn [bind]. rewrite truediv_ok by assumption. cbn [bind].
  rewrite Hvrd. cbn [bind]. rewrite truediv_ok by assumption. reflexivity.
Qed.

(** C1: [t_rd] returns [True] exactly when both capacities are computed,
    neither is zero, and
    [(t_ed / t_rd_max(...))^2 + (Ved / v_rd_max(...))^2 <= 1]; it returns
    [False] exactly when that sum is above 1; the comparison is
    inclusive, so a sum equal to 1 gives [True]. *)
Theorem t_rd_unity_check (t_ed : R) (approx_lvl_s : Z)
  (fck bw theta z E_s As Med Ved Ned delta_e alfa f_ck d_k a_k gamma_c : R) :
  (t_rd t_ed approx_lvl_s fck bw theta z E_s As Med Ved Ned delta_e alfa
     f_ck d_k a_k gamma_c = Ok true
   <->
   exists trd vrd,
     t_rd_max f_ck gamma_c d_k a_k theta approx_lvl_s
       E_s As Med Ved Ned z delta_e = Ok trd
     /\ trd <> 0
     /\ v_rd_max approx_lvl_s fck bw theta z E_s As Med Ved Ned
          delta_e alfa gamma_c = Ok vrd
     /\ vrd <> 0
     /\ (t_ed / trd) ^ 2 + (Ved / vrd) ^ 2 <= 1)
  /\ (t_rd t_ed approx_lvl_s fck bw theta z E_s As Med Ved Ned delta_e alfa
        f_ck d_k a_k gamma_c = Ok false
      <->
      exists trd vrd,
        t_rd_max f_ck gamma_c d_k a_k theta approx_lvl_s
          E_s As Med Ved Ned z delta_e = Ok trd
        /\ trd <> 0
        /\ v_rd_max approx_lvl_s fck bw theta z E_s As Med Ved Ned
             delta_e alfa gamma_c = Ok vrd
        /\ vrd <> 0
        /\ 1 < (t_ed / trd) ^ 2 + (Ved / vrd) ^ 2)
  /\ (forall trd vrd,
        t_rd_max f_ck gamma_c d_k a_k theta approx_lvl_s
          E_s As Med Ved Ned z delta_e = Ok trd ->
        trd <> 0 ->
        v_rd_max approx_lvl_s fck bw theta z E_s As Med Ved Ned
          delta_e alfa gamma_c = Ok vrd ->
        vrd <> 0 ->
        (t_ed / trd) ^ 2 + (Ved / vrd) ^ 2 = 1 ->
        t_rd t_ed approx_lvl_s fck bw theta z E_s As Med Ved Ned delta_e alfa
          f_ck d_k a_k gamma_c = Ok true).
Proof.
  split; [|split].
  - split.
    + intros H. apply t_rd_ok_inv in H as (trd & vrd & H1 & H2 & H3 & H4 & H5).
      exists trd, vrd. repeat split; try assumption.
      symmetry in H5. now apply float_le_true in H5.
    + intros (trd & vrd & H1 & H2 & H3 & H4 & H5).
      rewrite (t_rd_ok _ _ _ _ _ _ _ _ _ _ _ _ _ _ _ _ _ trd vrd) by assumption.
      f_equal. now apply float_le_true.
  - split.
    + intros H. apply t_rd_ok_inv in H as (trd & vrd & H1 & H2 & H3 & H4 & H5).
      exists trd, vrd. repeat split; try assumption.
      symmetry in H5. now apply float_le_false in H5.
    + intros (trd & vrd & H1 & H2 & H3 & H4 & H5).
      rewrite (t_rd_ok _ _ _ _ _ _ _ _ _ _ _ _ _ _ _ _ _ trd vrd) by assumption.
      f_equal. now apply float_le_false.
  - intros trd vrd H1 H2 H3 H4 H5.
    rewrite (t_rd_ok _ _ _ _ _ _ _ _ _ _ _ _ _ _ _ _ _ trd vrd) by assumption.
    f_equal. apply float_le_true. lra.
Qed.

(** ** Further properties of [v_ed_ti] *)

(** X1: [v_ed_ti] raises exactly when [a_k] is zero, and the exception
    is then [ZeroDivisionError], whatever [t_ed] and [z_i] are (no
    infinity or NaN is returned). *)
Theorem v_ed_ti_raises (t_ed a_k z_i : R) (e : exn) :
  v_ed_ti t_ed a_k z_i = Raise e <-> a_k = 0 /\ e = ZeroDivisionError.
Proof.
  unfold v_ed_ti, truediv. destruct (Req_dec_T (2 * a_k) 0) as [Hz|Hnz].
  - split.
    + intros H. injection H as <-. split; [lra | reflexivity].
    + intros [_ ->]. reflexivity.
  - split.
    + discriminate.
    + intros [Ha _]. exfalso. apply Hnz. lra.
Qed.

(** X2: superposition.  For a fixed [a_k], the shear of a linear
    combination of two torsions is the same combination of their
    shears, and likewise in [z_i]. *)
Theorem v_ed_ti_superposition (t1 t2 a_k z1 z2 alpha beta : R) :
  a_k <> 0 ->
  (exists v1 v2,
      v_ed_ti t1 a_k z1 = Ok v1 /\ v_ed_ti t2 a_k z1 = Ok v2
      /\ v_ed_ti (alpha * t1 + beta * t2) a_k z1
         = Ok (alpha * v1 + beta * v2))
  /\ (exists w1 w2,
         v_ed_ti t1 a_k z1 = Ok w1 /\ v_ed_ti t1 a_k z2 = Ok w2
         /\ v_ed_ti t1 a_k (alpha * z1 + beta * z2)
            = Ok (alpha * w1 + beta * w2)).
Proof.
  intros Ha. unfold v_ed_ti. split; do 2 eexists;
    rewrite !truediv_ok by lra;
    (split; [reflexivity|]); (split; [reflexivity|]);
    f_equal; field; lra.
Qed.

(** X3: the shear is inversely proportional to [a_k]: multiplying the
    enclosed area by a non-zero [c] divides the returned shear by
    [c]. *)
Theorem v_ed_ti_area_scaling (t_ed a_k z_i c v : R) :
  v_ed_ti t_ed a_k z_i = Ok v ->
  c <> 0 ->
  v_ed_ti t_ed (c * a_k) z_i = Ok (v / c).
Proof.
  unfold v_ed_ti. intros H Hc.
  apply truediv_ok_inv in H as [Ha ->].
  assert (Hak : a_k <> 0) by lra.
  assert (Hca : c * a_k <> 0) by (apply Rmult_integral_contrapositive; auto).
  rewrite truediv_ok by lra. f_equal. field. auto.
Qed.

(** ** Exceptions of [t_rd_max] *)

Lemma t_rd_max_raise_nfc
  (f_ck gamma_c d_k a_k theta : R) (approx_lvl_s : Z)
  (E_s As Med Ved Ned z delta_e : R) (e : exn) :
  t_rd_max_nfc f_ck = Raise e ->
  t_rd_max f_ck gamma_c d_k a_k theta approx_lvl_s
    E_s As Med Ved Ned z delta_e = Raise e.
Proof. intros H. unfold t_rd_max. now rewrite H. Qed.

Lemma t_rd_max_unbound_local
  (f_ck gamma_c d_k a_k theta : R) (approx_lvl_s : Z)
  (E_s As Med Ved Ned z delta_e : R) :
  0 < f_ck ->
  approx_lvl_s <> 1%Z -> approx_lvl_s <> 2%Z -> approx_lvl_s <> 3%Z ->
  t_rd_max f_ck gamma_c d_k a_k theta approx_lvl_s
    E_s As Med Ved Ned z delta_e = Raise UnboundLocalError.
Proof.
  intros Hf H1 H2 H3. unfold t_rd_max.
  rewrite nfc_pos, k_epsilon_unbound by assumption. reflexivity.
Qed.

(** X4: a characteristic strength that is not positive makes
    [t_rd_max] raise at every level, before [epsilon_x] is consulted:
    [ZeroDivisionError] for [f_ck = 0], [TypeError] for [f_ck < 0]. *)
Theorem t_rd_max_bad_strength
  (f_ck gamma_c d_k a_k theta : R) (approx_lvl_s : Z)
  (E_s As Med Ved Ned z delta_e : R) :
  (f_ck = 0 ->
   t_rd_max f_ck gamma_c d_k a_k theta approx_lvl_s
     E_s As Med Ved Ned z delta_e = Raise ZeroDivisionError)
  /\ (f_ck < 0 ->
      t_rd_max f_ck gamma_c d_k a_k theta approx_lvl_s
        E_s As Med Ved Ned z delta_e = Raise TypeError).
Proof.
  split.
  - intros ->. apply t_rd_max_raise_nfc, nfc_zero.
  - intros Hf. now apply t_rd_max_raise_nfc, nfc_neg.
Qed.

(** X5: with a safety factor [gamma_c = 0], [t_rd_max] raises
    [ZeroDivisionError] whenever the steps before the final division
    succeed ([f_ck > 0] and a bound [k_epsilon]). *)
Theorem t_rd_max_zero_safety_factor
  (f_ck d_k a_k theta : R) (approx_lvl_s : Z)
  (E_s As Med Ved Ned z delta_e k_epsilon : R) :
  0 < f_ck ->
  t_rd_max_k_epsilon theta approx_lvl_s E_s As Med Ved Ned z delta_e
  = Ok (Some k_epsilon) ->
  t_rd_max f_ck 0 d_k a_k theta approx_lvl_s E_s As Med Ved Ned z delta_e
  = Raise ZeroDivisionError.
Proof.
  intros Hf Hk. unfold t_rd_max.
  rewrite nfc_pos, Hk by assumption. cbn [bind load_local].
  apply truediv_zero.
Qed.

Lemma sin_zero_angle : sin (0 * PI / 180) = 0.
Proof. replace (0 * PI / 180) with 0 by lra. apply sin_0. Qed.

(** X6: the angle [theta = 0].  At level 2 the cotangent divides by
    [tan 0 = 0] and [t_rd_max] raises [ZeroDivisionError] (for
    [f_ck > 0] and an [epsilon_x] that returns), although at level 1
    the same angle gives the capacity 0. *)
Theorem t_rd_max_zero_angle
  (f_ck gamma_c d_k a_k E_s As Med Ved Ned z delta_e ex : R) :
  0 < f_ck ->
  epsilon_x E_s As Med Ved Ned z delta_e = Ok ex ->
  t_rd_max f_ck gamma_c d_k a_k 0 2 E_s As Med Ved Ned z delta_e
  = Raise ZeroDivisionError
  /\ (gamma_c <> 0 ->
      t_rd_max f_ck gamma_c d_k a_k 0 1 E_s As Med Ved Ned z delta_e
      = Ok 0).
Proof.
  intros Hf Hex. split.
  - unfold t_rd_max. rewrite nfc_pos by assumption. cbn [bind].
    unfold t_rd_max_k_epsilon. simpl Z.eqb. cbv iota.
    rewrite Hex. cbn [bind].
    replace (0 * PI / 180) with 0 by lra.
    rewrite math_tan_zero. cbn [bind].
    rewrite truediv_zero. reflexivity.
  - intros Hg. rewrite t_rd_max_level1_unfold, nfc_pos by assumption.
    cbn [bind]. rewrite truediv_ok by assumption.
    rewrite sin_zero_angle. f_equal. unfold Rdiv. ring.
Qed.

(** ** How the levels and the geometry compose *)

(** X7: when the input angle already is the refined angle
    [20 + 10000 * epsilon_x(...)], level 3 and level 2 give the same
    outcome. *)
Theorem t_rd_max_level3_at_refined_angle
  (f_ck gamma_c d_k a_k E_s As Med Ved Ned z delta_e ex : R) :
  epsilon_x E_s As Med Ved Ned z delta_e = Ok ex ->
  t_rd_max f_ck gamma_c d_k a_k (20 + 10000 * ex) 3
    E_s As Med Ved Ned z delta_e =
  t_rd_max f_ck gamma_c d_k a_k (20 + 10000 * ex) 2
    E_s As Med Ved Ned z delta_e.
Proof.
  intros Hex. unfold t_rd_max.
  now rewrite (k_epsilon_level3_as_level2 _ _ _ _ _ _ _ _ ex Hex).
Qed.

(** X8: the capacity is proportional to [a_k] and to [d_k], and
    inversely proportional to [gamma_c]: scaling one of them scales a
    returned value the same way, at every level. *)
Theorem t_rd_max_scaling
  (f_ck gamma_c d_k a_k theta : R) (approx_lvl_s : Z)
  (E_s As Med Ved Ned z delta_e r c : R) :
  t_rd_max f_ck gamma_c d_k a_k theta approx_lvl_s
    E_s As Med Ved Ned z delta_e = Ok r ->
  t_rd_max f_ck gamma_c d_k (c * a_k) theta approx_lvl_s
    E_s As Med Ved Ned z delta_e = Ok (c * r)
  /\ t_rd_max f_ck gamma_c (c * d_k) a_k theta approx_lvl_s
       E_s As Med Ved Ned z delta_e = Ok (c * r)
  /\ (c <> 0 ->
      t_rd_max f_ck (c * gamma_c) d_k a_k theta approx_lvl_s
        E_s As Med Ved Ned z delta_e = Ok (r / c)).
Proof.
  intros H. apply t_rd_max_ok_inv in H as (n & k & Hn & Hk & Hg & ->).
  split; [|split].
  - rewrite (t_rd_max_ok _ _ _ _ _ _ _ _ _ _ _ _ _ n k Hn Hk Hg).
    f_equal. field. assumption.
  - rewrite (t_rd_max_ok _ _ _ _ _ _ _ _ _ _ _ _ _ n k Hn Hk Hg).
    f_equal. field. assumption.
  - intros Hc.
    assert (Hcg : c * gamma_c <> 0)
      by (apply Rmult_integral_contrapositive; auto).
    rewrite (t_rd_max_ok _ _ _ _ _ _ _ _ _ _ _ _ _ n k Hn Hk Hcg).
    f_equal. field. auto.
Qed.

(** ** Exceptions of [t_rd] *)

Lemma t_rd_raise_capacity (t_ed : R) (approx_lvl_s : Z)
  (fck bw theta z E_s As Med Ved Ned delta_e alfa f_ck d_k a_k gamma_c : R)
  (e : exn) :
  t_rd_max f_ck gamma_c d_k a_k theta approx_lvl_s
    E_s As Med Ved Ned z delta_e = Raise e ->
  t_rd t_ed approx_lvl_s fck bw theta z E_s As Med Ved Ned delta_e alfa
    f_ck d_k a_k gamma_c = Raise e.
Proof. intros H. unfold t_rd. now rewrite H. Qed.

Lemma t_rd_raise_zero_capacity (t_ed : R) (approx_lvl_s : Z)
  (fck bw theta z E_s As Med Ved Ned delta_e alfa f_ck d_k a_k gamma_c : R) :
  t_rd_max f_ck gamma_c d_k a_k theta approx_lvl_s
    E_s As Med Ved Ned z delta_e = Ok 0 ->
  t_rd t_ed approx_lvl_s fck bw theta z E_s As Med Ved Ned delta_e alfa
    f_ck d_k a_k gamma_c = Raise ZeroDivisionError.
Proof.
  intros H. unfold t_rd. rewrite H. cbn [bind].
  now rewrite truediv_zero.
Qed.

(** X9: every way [t_rd] can raise, in evaluation order: the exception
    of [t_rd_max]; else [ZeroDivisionError] for a torsion capacity 0;
    else the exception of [v_rd_max]; else [ZeroDivisionError] for a
    shear capacity 0.  The shear helper is not reached when the torsion
    side has raised. *)
Theorem t_rd_raises (t_ed : R) (approx_lvl_s : Z)
  (fck bw theta z E_s As Med Ved Ned delta_e alfa f_ck d_k a_k gamma_c : R)
  (e : exn) :
  t_rd t_ed approx_lvl_s fck bw theta z E_s As Med Ved Ned delta_e alfa
    f_ck d_k a_k gamma_c = Raise e
  <->
  t_rd_max f_ck gamma_c d_k a_k theta approx_lvl_s
    E_s As Med Ved Ned z delta_e = Raise e
  \/ (t_rd_max f_ck gamma_c d_k a_k theta approx_lvl_s
        E_s As Med Ved Ned z delta_e = Ok 0
      /\ e = ZeroDivisionError)
  \/ (exists trd,
         t_rd_max f_ck gamma_c d_k a_k theta approx_lvl_s
           E_s As Med Ved Ned z delta_e = Ok trd
         /\ trd <> 0
         /\ (v_rd_max approx_lvl_s fck bw theta z E_s As Med Ved Ned
               delta_e alfa gamma_c = Raise e
             \/ (v_rd_max approx_lvl_s fck bw theta z E_s As Med Ved Ned
                   delta_e alfa gamma_c = Ok 0
                 /\ e = ZeroDivisionError))).
Proof.
  unfold t_rd.
  destruct (t_rd_max f_ck gamma_c d_k a_k theta approx_lvl_s
              E_s As Med Ved Ned z delta_e) as [trd|e0]; cbn [bind].
  - unfold truediv at 1. destruct (Req_dec_T trd 0) as [Hz|Hnz]; cbn [bind].
    + subst trd. split.
      * intros H. injection H as <-. right. left. auto.
      * intros [H|[[_ ->]|(trd & H & Hnz & _)]];
          [discriminate | reflexivity |].
        injection H as <-. now elim Hnz.
    + destruct (v_rd_max approx_lvl_s fck bw theta z E_s As Med Ved Ned
                  delta_e alfa gamma_c) as [vrd|e1]; cbn [bind].
      * unfold truediv. destruct (Req_dec_T vrd 0) as [Hv|Hv]; cbn [bind].
        -- subst vrd. split.
           ++ intros H. injection H as <-. right. right.
              exists trd. auto.
           ++ intros [H|[[H _]|(t' & _ & _ & [H|[_ ->]])]];
                try discriminate; try reflexivity.
              injection H as ->. now elim Hnz.
        -- split; [discriminate|].
           intros [H|[[H _]|(t' & _ & _ & [H|[H _]])]]; try discriminate.
           ++ injection H as ->. now elim Hnz.
           ++ injection H as ->. now elim Hv.
      * split.
        -- intros H. injection H as <-. right. right. exists trd. auto.
        -- intros [H|[[H _]|(t' & _ & _ & [H|[H _]])]]; try discriminate.
           ++ injection H as ->. now elim Hnz.
           ++ injection H as <-. reflexivity.
  - split.
    + intros H. injection H as <-. now left.
    + intros [H|[[H _]|(t' & H & _)]]; try discriminate.
      injection H as <-. reflexivity.
Qed.

(** X10: for a level outside 1, 2, 3 and [f_ck > 0], [t_rd] raises
    [UnboundLocalError] and returns no verdict, whatever [v_rd_max]
    does. *)
Theorem t_rd_invalid_level (t_ed : R) (approx_lvl_s : Z)
  (fck bw theta z E_s As Med Ved Ned delta_e alfa f_ck d_k a_k gamma_c : R) :
  approx_lvl_s <> 1%Z -> approx_lvl_s <> 2%Z -> approx_lvl_s <> 3%Z ->
  0 < f_ck ->
  t_rd t_ed approx_lvl_s fck bw theta z E_s As Med Ved Ned delta_e alfa
    f_ck d_k a_k gamma_c = Raise UnboundLocalError.
Proof.
  intros H1 H2 H3 Hf.
  apply t_rd_raise_capacity. now apply t_rd_max_unbound_local.
Qed.

(** X11: a section without torsion capacity cannot be checked.  When
    [a_k = 0], [d_k = 0] or [theta = 0] and [t_rd_max] returns, it
    returns 0, and [t_rd] raises [ZeroDivisionError] for every [t_ed],
    also for [t_ed = 0]. *)
Theorem t_rd_zero_capacity (t_ed : R) (approx_lvl_s : Z)
  (fck bw theta z E_s As Med Ved Ned delta_e alfa f_ck d_k a_k gamma_c : R)
  (r : R) :
  a_k = 0 \/ d_k = 0 \/ theta = 0 ->
  t_rd_max f_ck gamma_c d_k a_k theta approx_lvl_s
    E_s As Med Ved Ned z delta_e = Ok r ->
  r = 0
  /\ t_rd t_ed approx_lvl_s fck bw theta z E_s As Med Ved Ned delta_e alfa
       f_ck d_k a_k gamma_c = Raise ZeroDivisionError.
Proof.
  intros Hz H.
  assert (Hr : r = 0).
  { apply t_rd_max_ok_inv in H as (n & k & _ & _ & Hg & ->).
    destruct Hz as [-> | [-> | ->]].
    - unfold Rdiv. ring.
    - unfold Rdiv. ring.
    - rewrite sin_zero_angle. unfold Rdiv. ring. }
  split; [assumption|].
  apply t_rd_raise_zero_capacity. now rewrite H, Hr.
Qed.

(** ** The verdict of [t_rd] as a function of the loads *)

Lemma ratio_sqr (a b : R) : b <> 0 -> (a / b) ^ 2 = Rsqr a / Rsqr b.
Proof. intros Hb. unfold Rsqr. field. assumption. Qed.

Lemma ratio_sqr_le (a a' b : R) :
  b <> 0 -> Rabs a' <= Rabs a -> (a' / b) ^ 2 <= (a / b) ^ 2.
Proof.
  intros Hb Ha. rewrite !ratio_sqr by assumption.
  apply Rmult_le_compat_r.
  - left. apply Rinv_0_lt_compat. now apply Rsqr_pos_lt.
  - now apply Rsqr_le_abs_1.
Qed.

Lemma ratio_sqr_le_one (a b : R) :
  b <> 0 -> ((a / b) ^ 2 <= 1 <-> Rabs a <= Rabs b).
Proof.
  intros Hb. rewrite ratio_sqr by assumption.
  assert (Hb2 : 0 < Rsqr b) by now apply Rsqr_pos_lt.
  split.
  - intros H. apply Rsqr_le_abs_0.
    apply Rmult_le_compat_r with (r := Rsqr b) in H; [|lra].
    unfold Rdiv in H. rewrite Rmult_assoc, Rinv_l in H by lra. lra.
  - intros H. apply Rsqr_le_abs_1 in H.
    apply Rmult_le_reg_r with (Rsqr b); [assumption|].
    unfold Rdiv. rewrite Rmult_assoc, Rinv_l by lra. lra.
Qed.

Lemma sqr_ratio_nonneg (a b : R) : 0 <= (a / b) ^ 2.
Proof. apply pow2_ge_0. Qed.

(** X12: the verdict does not depend on the sign of the acting torsion:
    [t_rd] gives the same outcome for [- t_ed] and for [t_ed]. *)
Theorem t_rd_torsion_sign (t_ed : R) (approx_lvl_s : Z)
  (fck bw theta z E_s As Med Ved Ned delta_e alfa f_ck d_k a_k gamma_c : R) :
  t_rd (- t_ed) approx_lvl_s fck bw theta z E_s As Med Ved Ned delta_e alfa
    f_ck d_k a_k gamma_c =
  t_rd t_ed approx_lvl_s fck bw theta z E_s As Med Ved Ned delta_e alfa
    f_ck d_k a_k gamma_c.
Proof.
  unfold t_rd.
  destruct (t_rd_max f_ck gamma_c d_k a_k theta approx_lvl_s
              E_s As Med Ved Ned z delta_e) as [trd|e0];
    cbn [bind]; [|reflexivity].
  unfold truediv at 1 3. destruct (Req_dec_T trd 0) as [Hz|Hnz];
    cbn [bind]; [reflexivity|].
  destruct (v_rd_max approx_lvl_s fck bw theta z E_s As Med Ved Ned
              delta_e alfa gamma_c) as [vrd|e1]; cbn [bind]; [|reflexivity].
  destruct (truediv Ved vrd) as [uv|e2]; cbn [bind]; [|reflexivity].
  do 2 f_equal. field. assumption.
Qed.

(** X13: a passing check stays passing under a smaller torsion: if
    [t_rd] returns [True] for [t_ed], it returns [True] for every
    [t_ed'] with [|t_ed'| <= |t_ed|], the other arguments fixed. *)
Theorem t_rd_smaller_torsion_passes (t_ed t_ed' : R) (approx_lvl_s : Z)
  (fck bw theta z E_s As Med Ved Ned delta_e alfa f_ck d_k a_k gamma_c : R) :
  t_rd t_ed approx_lvl_s fck bw theta z E_s As Med Ved Ned delta_e alfa
    f_ck d_k a_k gamma_c = Ok true ->
  Rabs t_ed' <= Rabs t_ed ->
  t_rd t_ed' approx_lvl_s fck bw theta z E_s As Med Ved Ned delta_e alfa
    f_ck d_k a_k gamma_c = Ok true.
Proof.
  intros H Habs.
  apply t_rd_ok_inv in H as (trd & vrd & H1 & H2 & H3 & H4 & H5).
  rewrite (t_rd_ok _ _ _ _ _ _ _ _ _ _ _ _ _ _ _ _ _ trd vrd) by assumption.
  f_equal. symmetry in H5. apply float_le_true in H5.
  apply float_le_true.
  pose proof (ratio_sqr_le t_ed t_ed' trd H2 Habs). lra.
Qed.

(** X14: a passing check bounds each load by its own capacity: when
    [t_rd] returns [True], [|t_ed| <= |t_rd_max(...)|] and
    [|Ved| <= |v_rd_max(...)|]. *)
Theorem t_rd_pass_bounds_each_load (t_ed : R) (approx_lvl_s : Z)
  (fck bw theta z E_s As Med Ved Ned delta_e alfa f_ck d_k a_k gamma_c : R) :
  t_rd t_ed approx_lvl_s fck bw theta z E_s As Med Ved Ned delta_e alfa
    f_ck d_k a_k gamma_c = Ok true ->
  exists trd vrd,
    t_rd_max f_ck gamma_c d_k a_k theta approx_lvl_s
      E_s As Med Ved Ned z delta_e = Ok trd
    /\ v_rd_max approx_lvl_s fck bw theta z E_s As Med Ved Ned
         delta_e alfa gamma_c = Ok vrd
    /\ Rabs t_ed <= Rabs trd
    /\ Rabs Ved <= Rabs vrd.
Proof.
  intros H.
  apply t_rd_ok_inv in H as (trd & vrd & H1 & H2 & H3 & H4 & H5).
  symmetry in H5. apply float_le_true in H5.
  pose proof (sqr_ratio_nonneg t_ed trd).
  pose proof (sqr_ratio_nonneg Ved vrd).
  exists trd, vrd. repeat split; try assumption.
  - apply ratio_sqr_le_one; [assumption | lra].
  - apply ratio_sqr_le_one; [assumption | lra].
Qed.

(** X15: a torsion above the torsion capacity fails the check whatever
    the shear: when both capacities are returned and are not zero and
    [|t_ed| > |t_rd_max(...)|], [t_rd] returns [False]. *)
Theorem t_rd_torsion_above_capacity_fails (t_ed : R) (approx_lvl_s : Z)
  (fck bw theta z E_s As Med Ved Ned delta_e alfa f_ck d_k a_k gamma_c : R)
  (trd vrd : R) :
  t_rd_max f_ck gamma_c d_k a_k theta approx_lvl_s
    E_s As Med Ved Ned z delta_e = Ok trd ->
  trd <> 0 ->
  v_rd_max approx_lvl_s fck bw theta z E_s As Med Ved Ned
    delta_e alfa gamma_c = Ok vrd ->
  vrd <> 0 ->
  Rabs trd < Rabs t_ed ->
  t_rd t_ed approx_lvl_s fck bw theta z E_s As Med Ved Ned delta_e alfa
    f_ck d_k a_k gamma_c = Ok false.
Proof.
  intros H1 H2 H3 H4 Habs.
  rewrite (t_rd_ok _ _ _ _ _ _ _ _ _ _ _ _ _ _ _ _ _ trd vrd) by assumption.
  f_equal. apply float_le_false.
  pose proof (sqr_ratio_nonneg Ved vrd).
  destruct (Rle_lt_dec ((t_ed / trd) ^ 2) 1) as [Hle|Hlt]; [|lra].
  apply ratio_sqr_le_one in Hle; [lra | assumption].
Qed.

(** X16: without shear ([Ved = 0]) the interaction check is the plain
    torsion check: [t_rd] returns [True] exactly when
    [|t_ed| <= |t_rd_max(...)|], and [False] otherwise. *)
Theorem t_rd_pure_torsion (t_ed : R) (approx_lvl_s : Z)
  (fck bw theta z E_s As Med Ned delta_e alfa f_ck d_k a_k gamma_c : R)
  (trd vrd : R) :
  t_rd_max f_ck gamma_c d_k a_k theta approx_lvl_s
    E_s As Med 0 Ned z delta_e = Ok trd ->
  trd <> 0 ->
  v_rd_max approx_lvl_s fck bw theta z E_s As Med 0 Ned
    delta_e alfa gamma_c = Ok vrd ->
  vrd <> 0 ->
  (t_rd t_ed approx_lvl_s fck bw theta z E_s As Med 0 Ned delta_e alfa
     f_ck d_k a_k gamma_c = Ok true <-> Rabs t_ed <= Rabs trd)
  /\ (t_rd t_ed approx_lvl_s fck bw theta z E_s As Med 0 Ned delta_e alfa
        f_ck d_k a_k gamma_c = Ok false <-> Rabs trd < Rabs t_ed).
Proof.
  intros H1 H2 H3 H4.
  rewrite (t_rd_ok _ _ _ _ _ _ _ _ _ _ _ _ _ _ _ _ _ trd vrd) by assumption.
  assert (Hs : (t_ed / trd) ^ 2 + (0 / vrd) ^ 2 = (t_ed / trd) ^ 2)
    by (field; auto).
  rewrite Hs.
  pose proof (ratio_sqr_le_one t_ed trd H2) as Hiff.
  split; split.
  - intros H. injection H as H. apply float_le_true in H. now apply Hiff.
  - intros H. f_equal. apply float_le_true. now apply Hiff.
  - intros H. injection H as H. apply float_le_false in H.
    destruct (Rle_lt_dec (Rabs t_ed) (Rabs trd)) as [Hle|Hlt];
      [|assumption].
    apply Hiff in Hle. lra.
  - intros H. f_equal. apply float_le_false.
    destruct (Rle_lt_dec ((t_ed / trd) ^ 2) 1) as [Hle|Hlt]; [|assumption].
    apply Hiff in Hle. lra.
Qed.

(** ** The strain branch under a strain that is not negative *)

Lemma tan_nonzero (x : R) : sin x <> 0 -> cos x <> 0 -> tan x <> 0.
Proof.
  intros Hs Hc. unfold tan, Rdiv.
  apply Rmult_integral_contrapositive. split; [assumption|].
  now apply Rinv_neq_0_compat.
Qed.

Lemma strain_denominator_pos (ex c : R) :
  0 <= ex -> 1.2 <= 1.2 + 55 * (ex + (ex + 0.002) * c ^ 2).
Proof.
  intros Hex. pose proof (pow2_ge_0 c) as Hc.
  assert (0 <= (ex + 0.002) * c ^ 2) by (apply Rmult_le_pos; lra).
  lra.
Qed.

Lemma clamp_pos (d : R) : 0 < d -> 0 < Rmin (1 / d) 0.65 <= 0.65.
Proof.
  intros Hd. split; [|apply Rmin_r].
  apply Rmin_glb_lt; [|lra].
  apply Rdiv_lt_0_compat; lra.
Qed.

Lemma k_epsilon_level2_nonneg_strain
  (theta E_s As Med Ved Ned z delta_e ex : R) :
  epsilon_x E_s As Med Ved Ned z delta_e = Ok ex ->
  0 <= ex ->
  sin (theta * PI / 180) <> 0 ->
  cos (theta * PI / 180) <> 0 ->
  exists k,
    t_rd_max_k_epsilon theta 2 E_s As Med Ved Ned z delta_e = Ok (Some k)
    /\ 0 < k <= 0.65.
Proof.
  intros Hex H0 Hs Hc.
  pose proof (strain_denominator_pos ex (1 / tan (theta * PI / 180)) H0)
    as Hd.
  eexists. split.
  - apply (k_epsilon_level2 theta _ _ _ _ _ _ _ ex Hex Hc).
    + now apply tan_nonzero.
    + lra.
  - apply clamp_pos. lra.
Qed.

(** X17: at level 2, for an angle strictly between 0 and 90 degrees and
    a strain [epsilon_x(...) >= 0], no step of the branch raises and the
    value bound to [k_epsilon] lies in the interval (0, 0.65]. *)
Theorem k_epsilon_level2_range
  (theta E_s As Med Ved Ned z delta_e ex : R) :
  epsilon_x E_s As Med Ved Ned z delta_e = Ok ex ->
  0 <= ex ->
  0 < theta < 90 ->
  exists k_epsilon,
    t_rd_max_k_epsilon theta 2 E_s As Med Ved Ned z delta_e
    = Ok (Some k_epsilon)
    /\ 0 < k_epsilon <= 0.65.
Proof.
  intros Hex H0 Hth.
  assert (Hpi : 0 < PI) by apply PI_RGT_0.
  apply (k_epsilon_level2_nonneg_strain theta _ _ _ _ _ _ _ ex Hex H0).
  - apply Rgt_not_eq. apply sin_gt_0; nra.
  - apply Rgt_not_eq. apply cos_gt_0; nra.
Qed.

(** X18: at level 3, for a strain [0 <= epsilon_x(...) < 0.007] the
    refined angle lies in [20, 90), so [t_rd_max] returns a value for
    every input [theta], [f_ck > 0] and [gamma_c <> 0], built on a
    [k_epsilon] in (0, 0.65]. *)
Theorem t_rd_max_level3_returns
  (f_ck gamma_c d_k a_k theta E_s As Med Ved Ned z delta_e ex : R) :
  epsilon_x E_s As Med Ved Ned z delta_e = Ok ex ->
  0 <= ex < 0.007 ->
  0 < f_ck -> gamma_c <> 0 ->
  exists k_epsilon,
    t_rd_max_k_epsilon theta 3 E_s As Med Ved Ned z delta_e
    = Ok (Some k_epsilon)
    /\ 0 < k_epsilon <= 0.65
    /\ t_rd_max f_ck gamma_c d_k a_k theta 3 E_s As Med Ved Ned z delta_e
       = Ok (Rmin (Rpower (30 / f_ck) (1 / 3)) 1 * k_epsilon * f_ck
             * (d_k / 8) * 2 * a_k
             * sin (theta * PI / 180) * cos (theta * PI / 180) / gamma_c).
Proof.
  intros Hex [H0 H7] Hf Hg.
  assert (Hpi : 0 < PI) by apply PI_RGT_0.
  destruct (k_epsilon_level2_nonneg_strain (20 + 10000 * ex)
              _ _ _ _ _ _ _ ex Hex H0) as (k & Hk & Hrange).
  - apply Rgt_not_eq. apply sin_gt_0; nra.
  - apply Rgt_not_eq. apply cos_gt_0; nra.
  - rewrite <- (k_epsilon_level3_as_level2 theta _ _ _ _ _ _ _ ex Hex)
      in Hk.
    exists k. split; [assumption|]. split; [assumption|].
    apply t_rd_max_ok; [now apply nfc_pos | assumption | assumption].
Qed.

(** X19: where the clamp of [k_epsilon] is active.  At level 2, when the
    branch completes with a positive denominator
    [1.2 + 55 * epsilon_1], the bound value is 0.65 exactly when
    [epsilon_1 <= 2 / 325]; above that strain it is
    [1 / (1.2 + 55 * epsilon_1) < 0.65]. *)
Theorem k_epsilon_clamp_threshold
  (theta E_s As Med Ved Ned z delta_e ex : R) :
  epsilon_x E_s As Med Ved Ned z delta_e = Ok ex ->
  cos (theta * PI / 180) <> 0 ->
  tan (theta * PI / 180) <> 0 ->
  0 < 1.2 + 55 * (ex + (ex + 0.002) * (1 / tan (theta * PI / 180)) ^ 2) ->
  (ex + (ex + 0.002) * (1 / tan (theta * PI / 180)) ^ 2 <= 2 / 325 ->
   t_rd_max_k_epsilon theta 2 E_s As Med Ved Ned z delta_e
   = Ok (Some 0.65))
  /\ (2 / 325 < ex + (ex + 0.002) * (1 / tan (theta * PI / 180)) ^ 2 ->
      t_rd_max_k_epsilon theta 2 E_s As Med Ved Ned z delta_e
      = Ok (Some (1 / (1.2 + 55 * (ex + (ex + 0.002)
                         * (1 / tan (theta * PI / 180)) ^ 2))))
      /\ 1 / (1.2 + 55 * (ex + (ex + 0.002)
                * (1 / tan (theta * PI / 180)) ^ 2)) < 0.65).
Proof.
  intros Hex Hc Ht Hd.
  set (eps1 := ex + (ex + 0.002) * (1 / tan (theta * PI / 180)) ^ 2) in *.
  assert (Hk := k_epsilon_level2 theta _ _ _ _ _ _ _ ex Hex Hc Ht).
  fold eps1 in Hk. rewrite Hk by lra.
  assert (Hinv : 0 < / (1.2 + 55 * eps1)) by now apply Rinv_0_lt_compat.
  assert (Hone : (1.2 + 55 * eps1) * / (1.2 + 55 * eps1) = 1)
    by (apply Rinv_r; lra).
  assert (Hdiv : 1 / (1.2 + 55 * eps1) = / (1.2 + 55 * eps1))
    by (unfold Rdiv; ring).
  rewrite Hdiv. split.
  - intros Hle. do 2 f_equal. apply Rmin_right. nra.
  - intros Hlt. assert (Hlt' : / (1.2 + 55 * eps1) < 0.65) by nra.
    split; [|assumption].
    do 2 f_equal. apply Rmin_left. lra.
Qed.

(** ** The capacity as a function of the angle and of the strength *)

Lemma sin_cos_le_half (x : R) : sin x * cos x <= 1 / 2.
Proof.
  rewrite sin_cos_half. pose proof (SIN_bound (2 * x)) as [_ H]. lra.
Qed.

(** X20: at level 1 the angle of 45 degrees gives the largest capacity:
    for [f_ck > 0], [d_k >= 0], [a_k >= 0] and [gamma_c > 0], the value
    returned for any [theta] is at most the one returned for
    [theta = 45]. *)
Theorem t_rd_max_level1_largest_at_45
  (f_ck gamma_c d_k a_k theta E_s As Med Ved Ned z delta_e : R) :
  0 < f_ck -> 0 <= d_k -> 0 <= a_k -> 0 < gamma_c ->
  exists r r45,
    t_rd_max f_ck gamma_c d_k a_k theta 1 E_s As Med Ved Ned z delta_e
    = Ok r
    /\ t_rd_max f_ck gamma_c d_k a_k 45 1 E_s As Med Ved Ned z delta_e
       = Ok r45
    /\ r <= r45.
Proof.
  intros Hf Hd Ha Hg.
  rewrite !t_rd_max_level1_unfold, nfc_pos by assumption. cbn [bind].
  rewrite !truediv_ok by lra.
  set (n := Rmin (Rpower (30 / f_ck) (1 / 3)) 1).
  assert (Hn : 0 < n).
  { unfold n. apply Rmin_glb_lt; [|lra]. unfold Rpower. apply exp_pos. }
  do 2 eexists. split; [reflexivity|]. split; [reflexivity|].
  apply Rmult_le_compat_r; [left; now apply Rinv_0_lt_compat|].
  rewrite !Rmult_assoc. rewrite sin_cos_45.
  pose proof (sin_cos_le_half (theta * PI / 180)) as Hsc.
  repeat (apply Rmult_le_compat_l; [lra|]).
  assumption.
Qed.

Lemma half_turn (theta : R) :
  (theta + 180) * PI / 180 = theta * PI / 180 + PI.
Proof. field. Qed.

Lemma math_tan_half_turn (x : R) :
  sin x <> 0 -> cos x <> 0 -> math_tan (x + PI) = math_tan x.
Proof.
  intros Hs Hc.
  rewrite (math_tan_regular x Hs Hc).
  rewrite math_tan_regular by (rewrite ?neg_sin, ?neg_cos; lra).
  f_equal. unfold tan. rewrite neg_sin, neg_cos. field. assumption.
Qed.

Lemma k_epsilon_half_turn (theta : R) (approx_lvl_s : Z)
  (E_s As Med Ved Ned z delta_e : R) :
  approx_lvl_s <> 2%Z
  \/ (sin (theta * PI / 180) <> 0 /\ cos (theta * PI / 180) <> 0) ->
  t_rd_max_k_epsilon (theta + 180) approx_lvl_s E_s As Med Ved Ned z delta_e
  = t_rd_max_k_epsilon theta approx_lvl_s E_s As Med Ved Ned z delta_e.
Proof.
  intros H. unfold t_rd_max_k_epsilon.
  destruct (approx_lvl_s =? 1)%Z; [reflexivity|].
  destruct (approx_lvl_s =? 2)%Z eqn:E2; [|reflexivity].
  destruct H as [H|[Hs Hc]].
  - apply Z.eqb_eq in E2. contradiction.
  - now rewrite half_turn, math_tan_half_turn.
Qed.

(** X21: a half turn of the angle changes nothing, away from the angles
    where the cotangent of level 2 is singular: at a level other than
    2, or at level 2 for an angle that is no multiple of 90 degrees,
    [t_rd_max] gives the same outcome (value or exception) for
    [theta + 180] and for [theta]. *)
Theorem t_rd_max_half_turn
  (f_ck gamma_c d_k a_k theta : R) (approx_lvl_s : Z)
  (E_s As Med Ved Ned z delta_e : R) :
  approx_lvl_s <> 2%Z
  \/ (sin (theta * PI / 180) <> 0 /\ cos (theta * PI / 180) <> 0) ->
  t_rd_max f_ck gamma_c d_k a_k (theta + 180) approx_lvl_s
    E_s As Med Ved Ned z delta_e =
  t_rd_max f_ck gamma_c d_k a_k theta approx_lvl_s
    E_s As Med Ved Ned z delta_e.
Proof.
  intros H. unfold t_rd_max.
  rewrite (k_epsilon_half_turn _ _ _ _ _ _ _ _ _ H).
  rewrite half_turn, neg_sin, neg_cos.
  destruct (t_rd_max_nfc f_ck) as [n|e]; cbn [bind]; [|reflexivity].
  destruct (t_rd_max_k_epsilon theta approx_lvl_s
              E_s As Med Ved Ned z delta_e) as [b|e]; cbn [bind];
    [|reflexivity].
  destruct (load_local b) as [k|e]; cbn [bind]; [|reflexivity].
  f_equal. ring.
Qed.

Lemma cube_root_le_self (u : R) : 1 <= u -> Rpower u (1 / 3) <= u.
Proof.
  intros Hu. rewrite <- (Rpower_1 u) at 2 by lra.
  apply Rle_Rpower; lra.
Qed.

Lemma strength_term_mono_high (f1 f2 : R) :
  0 < f1 <= f2 ->
  Rpower (30 / f1) (1 / 3) * f1 <= Rpower (30 / f2) (1 / 3) * f2.
Proof.
  intros [H1 H12].
  assert (Hq2 : 0 < 30 / f2) by (apply Rdiv_lt_0_compat; lra).
  assert (Hu : 1 <= f2 / f1).
  { apply Rmult_le_reg_r with f1; [assumption|].
    unfold Rdiv. rewrite Rmult_assoc, Rinv_l by lra. lra. }
  replace (30 / f1) with (30 / f2 * (f2 / f1)) by (field; lra).
  rewrite <- Rpower_mult_distr by lra.
  assert (Hp : 0 < Rpower (30 / f2) (1 / 3))
    by (unfold Rpower; apply exp_pos).
  pose proof (cube_root_le_self _ Hu) as Hc.
  replace (Rpower (30 / f2) (1 / 3) * f2)
    with (Rpower (30 / f2) (1 / 3) * (f2 / f1) * f1) by (field; lra).
  apply Rmult_le_compat_r; [lra|].
  apply Rmult_le_compat_l; lra.
Qed.

Lemma strength_term_low (f_ck : R) :
  0 < f_ck <= 30 -> Rmin (Rpower (30 / f_ck) (1 / 3)) 1 * f_ck = f_ck.
Proof.
  intros [H0 H30]. rewrite Rmin_right; [lra|].
  destruct (Req_dec_T f_ck 30) as [->|Hne].
  - replace (30 / 30) with 1 by lra. rewrite Rpower_one_l. lra.
  - left. apply cube_root_above_one, ratio_above_one. lra.
Qed.

Lemma strength_term_high (f_ck : R) :
  30 <= f_ck ->
  Rmin (Rpower (30 / f_ck) (1 / 3)) 1 * f_ck
  = Rpower (30 / f_ck) (1 / 3) * f_ck.
Proof.
  intros H30. rewrite Rmin_left; [reflexivity|].
  now apply cube_root_at_most_one, ratio_at_most_one.
Qed.

Lemma strength_term_mono (f1 f2 : R) :
  0 < f1 <= f2 ->
  Rmin (Rpower (30 / f1) (1 / 3)) 1 * f1
  <= Rmin (Rpower (30 / f2) (1 / 3)) 1 * f2.
Proof.
  intros [H1 H12].
  destruct (Rle_lt_dec f2 30) as [H2|H2].
  - rewrite !strength_term_low by lra. assumption.
  - destruct (Rle_lt_dec 30 f1) as [H3|H3].
    + rewrite !strength_term_high by lra.
      apply strength_term_mono_high. lra.
    + rewrite strength_term_low by lra.
      rewrite strength_term_high by lra.
      apply Rle_trans with (Rpower (30 / 30) (1 / 3) * 30).
      * replace (30 / 30) with 1 by lra. rewrite Rpower_one_l. lra.
      * apply strength_term_mono_high. lra.
Qed.

(** X22: a stronger concrete never lowers the level-1 capacity: for
    [0 < f_ck1 <= f_ck2], [d_k >= 0], [a_k >= 0], [gamma_c > 0] and
    [theta] between 0 and 90 degrees, the value returned for [f_ck1] is
    at most the one returned for [f_ck2], although [nfc] decreases with
    the strength above 30. *)
Theorem t_rd_max_level1_monotone_in_f_ck
  (f_ck1 f_ck2 gamma_c d_k a_k theta E_s As Med Ved Ned z delta_e : R) :
  0 < f_ck1 <= f_ck2 ->
  0 <= d_k -> 0 <= a_k -> 0 < gamma_c -> 0 <= theta <= 90 ->
  exists r1 r2,
    t_rd_max f_ck1 gamma_c d_k a_k theta 1 E_s As Med Ved Ned z delta_e
    = Ok r1
    /\ t_rd_max f_ck2 gamma_c d_k a_k theta 1 E_s As Med Ved Ned z delta_e
       = Ok r2
    /\ r1 <= r2.
Proof.
  intros Hf Hd Ha Hg Hth.
  rewrite !t_rd_max_level1_unfold, !nfc_pos by lra. cbn [bind].
  rewrite !truediv_ok by lra.
  do 2 eexists. split; [reflexivity|]. split; [reflexivity|].
  pose proof (strength_term_mono f_ck1 f_ck2 Hf) as Hm.
  set (n1 := Rmin (Rpower (30 / f_ck1) (1 / 3)) 1) in *.
  set (n2 := Rmin (Rpower (30 / f_ck2) (1 / 3)) 1) in *.
  assert (Hpi : 0 < PI) by apply PI_RGT_0.
  assert (Hs : 0 <= sin (theta * PI / 180)) by (apply sin_ge_0; nra).
  assert (Hc : 0 <= cos (theta * PI / 180)) by (apply cos_ge_0; nra).
  set (s := sin (theta * PI / 180)) in *.
  set (c := cos (theta * PI / 180)) in *.
  apply Rmult_le_compat_r; [left; now apply Rinv_0_lt_compat|].
  replace (n1 * 0.55 * f_ck1 * (d_k / 8) * 2 * a_k * s * c)
    with (n1 * f_ck1 * (0.55 * (d_k / 8) * 2 * a_k * s * c)) by ring.
  replace (n2 * 0.55 * f_ck2 * (d_k / 8) * 2 * a_k * s * c)
    with (n2 * f_ck2 * (0.55 * (d_k / 8) * 2 * a_k * s * c)) by ring.
  apply Rmult_le_compat_r; [|assumption].
  assert (Hda : 0 <= d_k / 8 * a_k) by (apply Rmult_le_pos; lra).
  assert (Hsc : 0 <= s * c) by (apply Rmult_le_pos; lra).
  replace (0.55 * (d_k / 8) * 2 * a_k * s * c)
    with (0.55 * 2 * ((d_k / 8 * a_k) * (s * c))) by ring.
  apply Rmult_le_pos; [lra|]. now apply Rmult_le_pos.
Qed.

End Torsion.

(** ** Closed instances *)

Lemma quarter_turn : 45 * PI / 180 = PI / 4.
Proof. lra. Qed.

Lemma cos_45_nonzero : cos (45 * PI / 180) <> 0.
Proof.
  rewrite quarter_turn, cos_PI4.
  assert (H : 0 < 1 / sqrt 2).
  { apply Rdiv_lt_0_compat; [lra | apply sqrt_lt_R0; lra]. }
  lra.
Qed.

Lemma tan_45 : tan (45 * PI / 180) = 1.
Proof. rewrite quarter_turn. apply tan_PI4. Qed.

Lemma v_ed_ti_formula_linear_witness :
  (80000 <> 0 /\ v_ed_ti 5000000 80000 400
                = Ok (5000000 * 400 / (2 * 80000)))
  /\ (0 < 400 /\ 0 < 80000
      /\ exists v, v_ed_ti 5000000 80000 400 = Ok v
                   /\ v_ed_ti (2 * 5000000) 80000 400 = Ok (2 * v)).
Proof.
  split.
  - split; [lra|]. apply (proj1 (v_ed_ti_formula_linear 5000000 80000 400)). lra.
  - split; [lra|]. split; [lra|].
    apply (proj2 (v_ed_ti_formula_linear 5000000 80000 400)); lra.
Defined.

Lemma t_rd_max_level1_closed_form_witness :
  0 < 30 /\ 1.5 <> 0
  /\ t_rd_max tan_rounded_one (epsilon_x_const 0) 30 1.5 400 80000 45 1 0 0 0 0 0 0 0 =
     Ok (Rmin (Rpower (30 / 30) (1 / 3)) 1 * 0.55 * 30 * (400 / 8)
         * 2 * 80000 * sin (45 * PI / 180) * cos (45 * PI / 180) / 1.5).
Proof.
  split; [lra|]. split; [lra|].
  apply (proj1 (proj2 (t_rd_max_level1_closed_form
                         tan_rounded_one (epsilon_x_const 0) 30 1.5 400 80000 45))); lra.
Defined.

Lemma t_rd_max_invalid_level_witness :
  (4 <> 1)%Z /\ (4 <> 2)%Z /\ (4 <> 3)%Z /\ 0 < 30
  /\ t_rd_max tan_rounded_one (epsilon_x_const 0)
       30 1.5 400 80000 45 4 0 0 0 0 0 0 0
     = Raise UnboundLocalError.
Proof.
  split; [lia|]. split; [lia|]. split; [lia|]. split; [lra|].
  apply (proj1 (proj2 (t_rd_max_invalid_level
                  tan_rounded_one (epsilon_x_const 0)
                  30 1.5 400 80000 45 4 0 0 0 0 0 0 0
                  ltac:(lia) ltac:(lia) ltac:(lia)))).
  lra.
Defined.

(** C3 as it is written fails: at level 4 the exception is
    [UnboundLocalError], not one that rejects the argument; and at
    [f_ck = 0] level 4 raises what level 1 raises. *)
Lemma t_rd_max_invalid_level_no_rejection :
  t_rd_max tan_rounded_one (epsilon_x_const 0)
    30 1.5 400 80000 45 4 0 0 0 0 0 0 0 = Raise UnboundLocalError
  /\ UnboundLocalError <> ValueError
  /\ t_rd_max tan_rounded_one (epsilon_x_const 0)
       0 1.5 400 80000 45 4 0 0 0 0 0 0 0 = Raise ZeroDivisionError
  /\ t_rd_max tan_rounded_one (epsilon_x_const 0)
       0 1.5 400 80000 45 1 0 0 0 0 0 0 0 = Raise ZeroDivisionError.
Proof.
  split; [|split; [discriminate|split]].
  - unfold t_rd_max. now rewrite nfc_at_30.
  - unfold t_rd_max. now rewrite nfc_zero.
  - unfold t_rd_max. now rewrite nfc_zero.
Qed.

Lemma refined_angle_45 : 20 + 10000 * 0.0025 = 45.
Proof. lra. Qed.

Lemma t_rd_max_level3_angles_witness :
  epsilon_x_const 0.0025 0 0 0 0 0 0 0 = Ok 0.0025
  /\ 0 < 30 /\ 1.5 <> 0
  /\ cos ((20 + 10000 * 0.0025) * PI / 180) <> 0
  /\ tan ((20 + 10000 * 0.0025) * PI / 180) <> 0
  /\ 1.2 + 55 * (0.0025 + (0.0025 + 0.002)
                 * (1 / tan ((20 + 10000 * 0.0025) * PI / 180)) ^ 2) <> 0
  /\ t_rd_max tan_rounded_one (epsilon_x_const 0.0025) 30 1.5 400 80000 30 3 0 0 0 0 0 0 0 =
     Ok (Rmin (Rpower (30 / 30) (1 / 3)) 1
         * Rmin
             (1 / (1.2 + 55 * (0.0025 + (0.0025 + 0.002)
                    * (1 / tan ((20 + 10000 * 0.0025) * PI / 180)) ^ 2)))
             0.65
         * 30 * (400 / 8) * 2 * 80000
         * sin (30 * PI / 180) * cos (30 * PI / 180) / 1.5).
Proof.
  assert (Hc : cos ((20 + 10000 * 0.0025) * PI / 180) <> 0)
    by (rewrite refined_angle_45; exact cos_45_nonzero).
  assert (Ht : tan ((20 + 10000 * 0.0025) * PI / 180) <> 0)
    by (rewrite refined_angle_45, tan_45; lra).
  assert (Hd : 1.2 + 55 * (0.0025 + (0.0025 + 0.002)
                 * (1 / tan ((20 + 10000 * 0.0025) * PI / 180)) ^ 2) <> 0)
    by (rewrite refined_angle_45, tan_45; lra).
  repeat (split; [first [reflexivity | lra | assumption]|]).
  apply (proj2 (proj2 (t_rd_max_level3_angles
                         tan_rounded_one (epsilon_x_const 0.0025)
                         30 1.5 400 80000 30 0 0 0 0 0 0 0 0.0025
                         eq_refl))); try assumption; lra.
Defined.

Lemma k_epsilon_level2_clamped :
  t_rd_max_k_epsilon tan_rounded_one (epsilon_x_const 0) 45 2 0 0 0 0 0 0 0 = Ok (Some 0.65).
Proof.
  rewrite (k_epsilon_level2 tan_rounded_one (epsilon_x_const 0) 45 0 0 0 0 0 0 0 0 eq_refl).
  - rewrite tan_45. do 2 f_equal. apply Rmin_right.
    apply Rmult_le_reg_r with (1.2 + 55 * (0 + (0 + 0.002) * (1 / 1) ^ 2));
      [lra|].
    unfold Rdiv at 2. rewrite Rmult_assoc, Rinv_l by lra. lra.
  - exact cos_45_nonzero.
  - rewrite tan_45. lra.
  - rewrite tan_45. lra.
Qed.

Lemma k_epsilon_at_most_065_witness :
  (2 = 2 \/ 2 = 3)%Z
  /\ t_rd_max_k_epsilon tan_rounded_one (epsilon_x_const 0) 45 2 0 0 0 0 0 0 0
     = Ok (Some 0.65)
  /\ exists k_epsilon, Some 0.65 = Some k_epsilon /\ k_epsilon <= 0.65.
Proof.
  split; [left; reflexivity|]. split; [exact k_epsilon_level2_clamped|].
  apply (k_epsilon_at_most_065 tan_rounded_one (epsilon_x_const 0) 45 2 0 0 0 0 0 0 0
           (Some 0.65) (or_introl eq_refl) k_epsilon_level2_clamped).
Defined.

Lemma nfc_never_exceeds_one_witness :
  (30 <= 30 /\ t_rd_max_nfc 30 = Ok (Rpower (30 / 30) (1 / 3))
   /\ Rpower (30 / 30) (1 / 3) <= 1)
  /\ (0 < 20 < 30 /\ 1 < Rpower (30 / 20) (1 / 3)
      /\ t_rd_max_nfc 20 = Ok 1)
  /\ (t_rd_max tan_rounded_one (epsilon_x_const 0) 30 1.5 400 80000 45 1 0 0 0 0 0 0 0
      = Ok 44000000
      /\ exists nfc k_epsilon,
           t_rd_max_nfc 30 = Ok nfc
           /\ nfc <= 1
           /\ t_rd_max_k_epsilon tan_rounded_one (epsilon_x_const 0) 45 1 0 0 0 0 0 0 0
              = Ok (Some k_epsilon)
           /\ 44000000 = nfc * k_epsilon * 30 * (400 / 8) * 2 * 80000
                         * sin (45 * PI / 180) * cos (45 * PI / 180) / 1.5).
Proof.
  split; [|split].
  - split; [lra|].
    apply (proj1 (nfc_never_exceeds_one tan_rounded_one (epsilon_x_const 0)) 30). lra.
  - split; [lra|].
    apply (proj1 (proj2 (nfc_never_exceeds_one tan_rounded_one (epsilon_x_const 0))) 20). lra.
  - split; [apply t_rd_max_example_value|].
    apply (proj2 (proj2 (nfc_never_exceeds_one tan_rounded_one (epsilon_x_const 0)))
             30 1.5 400 80000 45 1%Z 0 0 0 0 0 0 0 44000000).
    apply t_rd_max_example_value.
Defined.

Lemma t_rd_max_monotone_in_a_k_witness :
  0 < 30 /\ 0 <= 400 /\ 0 < 1.5 /\ 0 <= 45 <= 90
  /\ t_rd_max_k_epsilon tan_rounded_one (epsilon_x_const 0) 45 1 0 0 0 0 0 0 0
     = Ok (Some 0.55)
  /\ 0 <= 0.55 /\ 1 <= 2
  /\ exists r1 r2,
       t_rd_max tan_rounded_one (epsilon_x_const 0) 30 1.5 400 1 45 1 0 0 0 0 0 0 0 = Ok r1
       /\ t_rd_max tan_rounded_one (epsilon_x_const 0) 30 1.5 400 2 45 1 0 0 0 0 0 0 0
          = Ok r2
       /\ r1 <= r2.
Proof.
  repeat (split; [first [reflexivity | lra]|]).
  apply (t_rd_max_monotone_in_a_k tan_rounded_one (epsilon_x_const 0)
           30 1.5 400 1 2 45 1 0 0 0 0 0 0 0 0.55);
    first [reflexivity | lra].
Defined.

(** C8 as it is written fails: at [theta = 135] the product of sine and
    cosine is negative, and a larger [a_k] gives a smaller result. *)
Lemma t_rd_max_decreasing_in_a_k :
  t_rd_max tan_rounded_one (epsilon_x_const 0) 30 1.5 400 1 135 1 0 0 0 0 0 0 0 = Ok (-550)
  /\ t_rd_max tan_rounded_one (epsilon_x_const 0) 30 1.5 400 2 135 1 0 0 0 0 0 0 0
     = Ok (-1100)
  /\ 1 <= 2
  /\ ~ (-550 <= -1100).
Proof.
  assert (H : forall a_k,
             t_rd_max tan_rounded_one (epsilon_x_const 0) 30 1.5 400 a_k 135 1 0 0 0 0 0 0 0
             = Ok (-550 * a_k)).
  { intros a_k. rewrite t_rd_max_level1_unfold, nfc_at_30. cbn [bind].
    rewrite truediv_ok by lra. f_equal.
    replace (1 * 0.55 * 30 * (400 / 8) * 2 * a_k
             * sin (135 * PI / 180) * cos (135 * PI / 180))
      with (0.55 * 30 * 50 * 2 * a_k
            * (sin (135 * PI / 180) * cos (135 * PI / 180))) by lra.
    rewrite sin_cos_135. lra. }
  repeat split; try lra.
  - rewrite H. f_equal. lra.
  - rewrite H. f_equal. lra.
Qed.

Lemma t_rd_unity_check_witness :
  t_rd_max tan_rounded_one (epsilon_x_const 0) 30 1.5 400 80000 45 1 0 0 0 0 0 0 0
  = Ok 44000000
  /\ 44000000 <> 0
  /\ v_rd_max_const 1 1 30 200 45 0 0 0 0 0 0 0 90 1.5 = Ok 1
  /\ 1 <> 0
  /\ (44000000 / 44000000) ^ 2 + (0 / 1) ^ 2 = 1
  /\ t_rd tan_rounded_one (epsilon_x_const 0) (v_rd_max_const 1)
       44000000 1 30 200 45 0 0 0 0 0 0 0 90 30 400 80000 1.5 = Ok true.
Proof.
  assert (Hs : (44000000 / 44000000) ^ 2 + (0 / 1) ^ 2 = 1) by (simpl; field).
  repeat (split; [first [apply t_rd_max_example_value
                        | reflexivity | lra | exact Hs]|]).
  apply (proj2 (proj2 (t_rd_unity_check
                         tan_rounded_one (epsilon_x_const 0) (v_rd_max_const 1)
                         44000000 1 30 200 45 0 0 0 0 0 0 0 90 30 400 80000
                         1.5))
           44000000 1);
    first [apply t_rd_max_example_value | reflexivity | lra | exact Hs].
Defined.

(** ** Closed instances of the further properties *)

Lemma v_ed_ti_superposition_witness :
  80000 <> 0
  /\ (exists v1 v2,
         v_ed_ti 5000000 80000 400 = Ok v1
         /\ v_ed_ti 1000000 80000 400 = Ok v2
         /\ v_ed_ti (2 * 5000000 + 3 * 1000000) 80000 400
            = Ok (2 * v1 + 3 * v2)).
Proof.
  split; [lra|].
  apply (proj1 (v_ed_ti_superposition 5000000 1000000 80000 400 300 2 3
                  ltac:(lra))).
Defined.

Lemma v_ed_ti_area_scaling_witness :
  v_ed_ti 5000000 80000 400 = Ok (5000000 * 400 / (2 * 80000))
  /\ 2 <> 0
  /\ v_ed_ti 5000000 (2 * 80000) 400
     = Ok (5000000 * 400 / (2 * 80000) / 2).
Proof.
  assert (H : v_ed_ti 5000000 80000 400 = Ok (5000000 * 400 / (2 * 80000)))
    by (apply truediv_ok; lra).
  split; [exact H|]. split; [lra|].
  apply (v_ed_ti_area_scaling 5000000 80000 400 2 _ H). lra.
Defined.

Lemma t_rd_max_bad_strength_witness :
  - (30) < 0
  /\ t_rd_max tan_rounded_one (epsilon_x_const 0) (- (30)) 1.5 400 80000 45 2 0 0 0 0 0 0 0
     = Raise TypeError.
Proof.
  split; [lra|].
  apply (proj2 (t_rd_max_bad_strength tan_rounded_one (epsilon_x_const 0)
                  (- (30)) 1.5 400 80000 45 2 0 0 0 0 0 0 0)).
  lra.
Defined.

Lemma t_rd_max_zero_safety_factor_witness :
  0 < 30
  /\ t_rd_max_k_epsilon tan_rounded_one (epsilon_x_const 0) 45 1 0 0 0 0 0 0 0
     = Ok (Some 0.55)
  /\ t_rd_max tan_rounded_one (epsilon_x_const 0) 30 0 400 80000 45 1 0 0 0 0 0 0 0
     = Raise ZeroDivisionError.
Proof.
  split; [lra|]. split; [reflexivity|].
  apply (t_rd_max_zero_safety_factor tan_rounded_one (epsilon_x_const 0)
           30 400 80000 45 1 0 0 0 0 0 0 0 0.55); [lra | reflexivity].
Defined.

Lemma t_rd_max_zero_angle_witness :
  0 < 30
  /\ epsilon_x_const 0.001 0 0 0 0 0 0 0 = Ok 0.001
  /\ t_rd_max tan_rounded_one (epsilon_x_const 0.001) 30 1.5 400 80000 0 2 0 0 0 0 0 0 0
     = Raise ZeroDivisionError
  /\ (1.5 <> 0 ->
      t_rd_max tan_rounded_one (epsilon_x_const 0.001) 30 1.5 400 80000 0 1 0 0 0 0 0 0 0
      = Ok 0).
Proof.
  split; [lra|]. split; [reflexivity|].
  apply (t_rd_max_zero_angle tan_rounded_one (epsilon_x_const 0.001)
           30 1.5 400 80000 0 0 0 0 0 0 0 0.001); [lra | reflexivity].
Defined.

Lemma t_rd_max_level3_at_refined_angle_witness :
  epsilon_x_const 0.0025 0 0 0 0 0 0 0 = Ok 0.0025
  /\ t_rd_max tan_rounded_one (epsilon_x_const 0.0025) 30 1.5 400 80000
       (20 + 10000 * 0.0025) 3 0 0 0 0 0 0 0
     = t_rd_max tan_rounded_one (epsilon_x_const 0.0025) 30 1.5 400 80000
         (20 + 10000 * 0.0025) 2 0 0 0 0 0 0 0.
Proof.
  split; [reflexivity|].
  apply (t_rd_max_level3_at_refined_angle tan_rounded_one (epsilon_x_const 0.0025)
           30 1.5 400 80000 0 0 0 0 0 0 0 0.0025 eq_refl).
Defined.

Lemma t_rd_max_scaling_witness :
  t_rd_max tan_rounded_one (epsilon_x_const 0) 30 1.5 400 80000 45 1 0 0 0 0 0 0 0
  = Ok 44000000
  /\ t_rd_max tan_rounded_one (epsilon_x_const 0) 30 1.5 400 (3 * 80000) 45 1 0 0 0 0 0 0 0
     = Ok (3 * 44000000)
  /\ t_rd_max tan_rounded_one (epsilon_x_const 0) 30 1.5 (3 * 400) 80000 45 1 0 0 0 0 0 0 0
     = Ok (3 * 44000000)
  /\ (3 <> 0 ->
      t_rd_max tan_rounded_one (epsilon_x_const 0) 30 (3 * 1.5) 400 80000 45 1
        0 0 0 0 0 0 0
      = Ok (44000000 / 3)).
Proof.
  split; [apply t_rd_max_example_value|].
  apply (t_rd_max_scaling tan_rounded_one (epsilon_x_const 0)
           30 1.5 400 80000 45 1 0 0 0 0 0 0 0 44000000 3).
  apply t_rd_max_example_value.
Defined.

Lemma t_rd_invalid_level_witness :
  (0 <> 1)%Z /\ (0 <> 2)%Z /\ (0 <> 3)%Z /\ 0 < 30
  /\ t_rd tan_rounded_one (epsilon_x_const 0) (v_rd_max_const 1)
       5000000 0 30 200 45 0 0 0 0 0 0 0 90 30 400 80000 1.5
     = Raise UnboundLocalError.
Proof.
  split; [lia|]. split; [lia|]. split; [lia|]. split; [lra|].
  apply (t_rd_invalid_level tan_rounded_one (epsilon_x_const 0) (v_rd_max_const 1)
           5000000 0 30 200 45 0 0 0 0 0 0 0 90 30 400 80000 1.5);
    first [lia | lra].
Defined.

Lemma t_rd_max_without_area :
  t_rd_max tan_rounded_one (epsilon_x_const 0) 30 1.5 400 0 45 1 0 0 0 0 0 0 0 = Ok 0.
Proof.
  rewrite t_rd_max_level1_unfold, nfc_at_30. cbn [bind].
  rewrite truediv_ok by lra. f_equal. unfold Rdiv. ring.
Qed.

Lemma t_rd_zero_capacity_witness :
  (0 = 0 \/ 400 = 0 \/ 45 = 0)
  /\ t_rd_max tan_rounded_one (epsilon_x_const 0) 30 1.5 400 0 45 1 0 0 0 0 0 0 0 = Ok 0
  /\ 0 = 0
  /\ t_rd tan_rounded_one (epsilon_x_const 0) (v_rd_max_const 1)
       0 1 30 200 45 0 0 0 0 0 0 0 90 30 400 0 1.5
     = Raise ZeroDivisionError.
Proof.
  split; [left; reflexivity|]. split; [exact t_rd_max_without_area|].
  apply (t_rd_zero_capacity tan_rounded_one (epsilon_x_const 0) (v_rd_max_const 1)
           0 1 30 200 45 0 0 0 0 0 0 0 90 30 400 0 1.5 0
           (or_introl eq_refl) t_rd_max_without_area).
Defined.

Lemma t_rd_example_passes :
  t_rd tan_rounded_one (epsilon_x_const 0) (v_rd_max_const 1)
    44000000 1 30 200 45 0 0 0 0 0 0 0 90 30 400 80000 1.5 = Ok true.
Proof.
  rewrite (t_rd_ok tan_rounded_one (epsilon_x_const 0) (v_rd_max_const 1)
             _ _ _ _ _ _ _ _ _ _ _ _ _ _ _ _ _ 44000000 1);
    first [apply t_rd_max_example_value | reflexivity | lra | idtac].
  f_equal. apply float_le_true.
  replace ((44000000 / 44000000) ^ 2 + (0 / 1) ^ 2) with 1 by field. lra.
Qed.

Lemma Rabs_44 : Rabs 44000000 = 44000000.
Proof. apply Rabs_pos_eq. lra. Qed.

Lemma t_rd_smaller_torsion_passes_witness :
  t_rd tan_rounded_one (epsilon_x_const 0) (v_rd_max_const 1)
    44000000 1 30 200 45 0 0 0 0 0 0 0 90 30 400 80000 1.5 = Ok true
  /\ Rabs (- (5000000)) <= Rabs 44000000
  /\ t_rd tan_rounded_one (epsilon_x_const 0) (v_rd_max_const 1)
       (- (5000000)) 1 30 200 45 0 0 0 0 0 0 0 90 30 400 80000 1.5
     = Ok true.
Proof.
  assert (Ha : Rabs (- (5000000)) <= Rabs 44000000).
  { rewrite Rabs_44, Rabs_Ropp, Rabs_pos_eq; lra. }
  split; [exact t_rd_example_passes|]. split; [exact Ha|].
  apply (t_rd_smaller_torsion_passes tan_rounded_one (epsilon_x_const 0) (v_rd_max_const 1)
           44000000 (- (5000000)) 1 30 200 45 0 0 0 0 0 0 0 90 30 400 80000
           1.5 t_rd_example_passes Ha).
Defined.

Lemma t_rd_pass_bounds_each_load_witness :
  t_rd tan_rounded_one (epsilon_x_const 0) (v_rd_max_const 1)
    44000000 1 30 200 45 0 0 0 0 0 0 0 90 30 400 80000 1.5 = Ok true
  /\ exists trd vrd,
       t_rd_max tan_rounded_one (epsilon_x_const 0) 30 1.5 400 80000 45 1 0 0 0 0 0 0 0
       = Ok trd
       /\ v_rd_max_const 1 1 30 200 45 0 0 0 0 0 0 0 90 1.5 = Ok vrd
       /\ Rabs 44000000 <= Rabs trd
       /\ Rabs 0 <= Rabs vrd.
Proof.
  split; [exact t_rd_example_passes|].
  apply (t_rd_pass_bounds_each_load tan_rounded_one (epsilon_x_const 0) (v_rd_max_const 1)
           44000000 1 30 200 45 0 0 0 0 0 0 0 90 30 400 80000 1.5
           t_rd_example_passes).
Defined.

Lemma t_rd_torsion_above_capacity_fails_witness :
  t_rd_max tan_rounded_one (epsilon_x_const 0) 30 1.5 400 80000 45 1 0 0 0 0 0 0 0
  = Ok 44000000
  /\ 44000000 <> 0
  /\ v_rd_max_const 1 1 30 200 45 0 0 0 0 0 0 0 90 1.5 = Ok 1
  /\ 1 <> 0
  /\ Rabs 44000000 < Rabs 50000000
  /\ t_rd tan_rounded_one (epsilon_x_const 0) (v_rd_max_const 1)
       50000000 1 30 200 45 0 0 0 0 0 0 0 90 30 400 80000 1.5 = Ok false.
Proof.
  assert (Ha : Rabs 44000000 < Rabs 50000000).
  { rewrite Rabs_44, Rabs_pos_eq; lra. }
  split; [apply t_rd_max_example_value|]. split; [lra|].
  split; [reflexivity|]. split; [lra|]. split; [exact Ha|].
  apply (t_rd_torsion_above_capacity_fails
           tan_rounded_one (epsilon_x_const 0) (v_rd_max_const 1)
           50000000 1 30 200 45 0 0 0 0 0 0 0 90 30 400 80000 1.5
           44000000 1);
    first [apply t_rd_max_example_value | reflexivity | lra | exact Ha].
Defined.

Lemma t_rd_pure_torsion_witness :
  t_rd_max tan_rounded_one (epsilon_x_const 0) 30 1.5 400 80000 45 1 0 0 0 0 0 0 0
  = Ok 44000000
  /\ 44000000 <> 0
  /\ v_rd_max_const 1 1 30 200 45 0 0 0 0 0 0 0 90 1.5 = Ok 1
  /\ 1 <> 0
  /\ (t_rd tan_rounded_one (epsilon_x_const 0) (v_rd_max_const 1)
        5000000 1 30 200 45 0 0 0 0 0 0 0 90 30 400 80000 1.5 = Ok true
      <-> Rabs 5000000 <= Rabs 44000000).
Proof.
  split; [apply t_rd_max_example_value|]. split; [lra|].
  split; [reflexivity|]. split; [lra|].
  apply (proj1 (t_rd_pure_torsion tan_rounded_one (epsilon_x_const 0) (v_rd_max_const 1)
                  5000000 1 30 200 45 0 0 0 0 0 0 90 30 400 80000 1.5
                  44000000 1
                  (t_rd_max_example_value tan_rounded_one (epsilon_x_const 0) 0 0 0 0 0 0 0)
                  ltac:(lra) eq_refl ltac:(lra))).
Defined.

Lemma k_epsilon_level2_range_witness :
  epsilon_x_const 0.001 0 0 0 0 0 0 0 = Ok 0.001
  /\ 0 <= 0.001
  /\ 0 < 45 < 90
  /\ exists k_epsilon,
       t_rd_max_k_epsilon tan_rounded_one (epsilon_x_const 0.001) 45 2 0 0 0 0 0 0 0
       = Ok (Some k_epsilon)
       /\ 0 < k_epsilon <= 0.65.
Proof.
  split; [reflexivity|]. split; [lra|]. split; [lra|].
  apply (k_epsilon_level2_range tan_rounded_one (epsilon_x_const 0.001)
           45 0 0 0 0 0 0 0 0.001 eq_refl); lra.
Defined.

Lemma t_rd_max_level3_returns_witness :
  epsilon_x_const 0.0025 0 0 0 0 0 0 0 = Ok 0.0025
  /\ 0 <= 0.0025 < 0.007
  /\ 0 < 30 /\ 1.5 <> 0
  /\ exists k_epsilon,
       t_rd_max_k_epsilon tan_rounded_one (epsilon_x_const 0.0025) 30 3 0 0 0 0 0 0 0
       = Ok (Some k_epsilon)
       /\ 0 < k_epsilon <= 0.65
       /\ t_rd_max tan_rounded_one (epsilon_x_const 0.0025) 30 1.5 400 80000 30 3
            0 0 0 0 0 0 0
          = Ok (Rmin (Rpower (30 / 30) (1 / 3)) 1 * k_epsilon * 30
                * (400 / 8) * 2 * 80000
                * sin (30 * PI / 180) * cos (30 * PI / 180) / 1.5).
Proof.
  split; [reflexivity|]. split; [lra|]. split; [lra|]. split; [lra|].
  apply (t_rd_max_level3_returns tan_rounded_one (epsilon_x_const 0.0025)
           30 1.5 400 80000 30 0 0 0 0 0 0 0 0.0025 eq_refl); lra.
Defined.

Lemma k_epsilon_clamp_threshold_witness :
  epsilon_x_const 0 0 0 0 0 0 0 0 = Ok 0
  /\ cos (45 * PI / 180) <> 0
  /\ tan (45 * PI / 180) <> 0
  /\ 0 < 1.2 + 55 * (0 + (0 + 0.002) * (1 / tan (45 * PI / 180)) ^ 2)
  /\ 0 + (0 + 0.002) * (1 / tan (45 * PI / 180)) ^ 2 <= 2 / 325
  /\ t_rd_max_k_epsilon tan_rounded_one (epsilon_x_const 0) 45 2 0 0 0 0 0 0 0
     = Ok (Some 0.65).
Proof.
  assert (Ht : tan (45 * PI / 180) <> 0) by (rewrite tan_45; lra).
  assert (Hd : 0 < 1.2 + 55 * (0 + (0 + 0.002)
                                  * (1 / tan (45 * PI / 180)) ^ 2))
    by (rewrite tan_45; lra).
  assert (He : 0 + (0 + 0.002) * (1 / tan (45 * PI / 180)) ^ 2 <= 2 / 325)
    by (rewrite tan_45; lra).
  split; [reflexivity|]. split; [exact cos_45_nonzero|].
  split; [exact Ht|]. split; [exact Hd|]. split; [exact He|].
  apply (proj1 (k_epsilon_clamp_threshold tan_rounded_one (epsilon_x_const 0)
                  45 0 0 0 0 0 0 0 0 eq_refl cos_45_nonzero Ht Hd) He).
Defined.

Lemma t_rd_max_level1_largest_at_45_witness :
  0 < 30 /\ 0 <= 400 /\ 0 <= 80000 /\ 0 < 1.5
  /\ exists r r45,
       t_rd_max tan_rounded_one (epsilon_x_const 0) 30 1.5 400 80000 30 1 0 0 0 0 0 0 0
       = Ok r
       /\ t_rd_max tan_rounded_one (epsilon_x_const 0) 30 1.5 400 80000 45 1 0 0 0 0 0 0 0
          = Ok r45
       /\ r <= r45.
Proof.
  repeat (split; [lra|]).
  apply (t_rd_max_level1_largest_at_45 tan_rounded_one (epsilon_x_const 0)
           30 1.5 400 80000 30 0 0 0 0 0 0 0); lra.
Defined.

Lemma t_rd_max_level1_monotone_in_f_ck_witness :
  0 < 30 <= 40 /\ 0 <= 400 /\ 0 <= 80000 /\ 0 < 1.5 /\ 0 <= 45 <= 90
  /\ exists r1 r2,
       t_rd_max tan_rounded_one (epsilon_x_const 0) 30 1.5 400 80000 45 1 0 0 0 0 0 0 0
       = Ok r1
       /\ t_rd_max tan_rounded_one (epsilon_x_const 0) 40 1.5 400 80000 45 1 0 0 0 0 0 0 0
          = Ok r2
       /\ r1 <= r2.
Proof.
  repeat (split; [lra|]).
  apply (t_rd_max_level1_monotone_in_f_ck tan_rounded_one (epsilon_x_const 0)
           30 40 1.5 400 80000 45 0 0 0 0 0 0 0); lra.
Defined.

Lemma sin_45_nonzero : sin (45 * PI / 180) <> 0.
Proof.
  rewrite quarter_turn, sin_PI4.
  assert (H : 0 < 1 / sqrt 2).
  { apply Rdiv_lt_0_compat; [lra | apply sqrt_lt_R0; lra]. }
  lra.
Qed.

Lemma t_rd_max_half_turn_witness :
  ((2 <> 2)%Z
   \/ (sin (45 * PI / 180) <> 0 /\ cos (45 * PI / 180) <> 0))
  /\ t_rd_max tan_rounded_one (epsilon_x_const 0.001)
       30 1.5 400 80000 (45 + 180) 2 0 0 0 0 0 0 0
     = t_rd_max tan_rounded_one (epsilon_x_const 0.001)
         30 1.5 400 80000 45 2 0 0 0 0 0 0 0.
Proof.
  assert (H : (2 <> 2)%Z
              \/ (sin (45 * PI / 180) <> 0 /\ cos (45 * PI / 180) <> 0))
    by (right; split; [exact sin_45_nonzero | exact cos_45_nonzero]).
  split; [exact H|].
  apply (t_rd_max_half_turn tan_rounded_one (epsilon_x_const 0.001)
           30 1.5 400 80000 45 2 0 0 0 0 0 0 0 H).
Defined.
